(** * forkflow-services: order creation across the catalog boundary

    A shallow embedding of the two services of the repository,

    - [catalog-service/app/main.py] (module [Catalog]): the per-tenant menu
      and its point lookup [get_menu_item];
    - [order-service/app/main.py] (module [OrderService]): the validation
      client [validate_menu_items], the order store [orders] and the
      handlers [create_order], [get_orders], [get_order] and
      [update_order_status];

    followed by the properties of the order lifecycle proved about them.

    Python values are modelled as follows.  A [dict] used as a map is a
    [gmap]; a [float] is an IEEE binary64 number; an [int] is a [Z]; a
    naive [datetime] is its count of microseconds, which orders naive
    datetimes the way Python compares them.  Handlers run in a small state
    and exception monad whose state holds the module-level [orders]
    dictionary and the outside world (the network towards the catalog, the
    UUID generator and the wall clock). *)

From Stdlib Require Import ZArith String List.
From Corelib Require Import PrimFloat SpecFloat FloatOps.
From stdpp Require Import gmap strings list fin_maps.

Local Open Scope Z_scope.
Set Warnings "-inexact-float".

(** ** Python values shared by both services *)

(** The exceptions that the two services raise or let escape.
    [TimeoutException] and [RequestError] are httpx's; the first is a
    subclass of the second in httpx, and [RequestError] below stands for
    the instances that are not timeouts.  [HTTPStatusError] is what
    [raise_for_status] raises; it is not a [RequestError].
    [JSONDecodeError] stands for the [ValueError] that [response.json()]
    raises on a body that is not JSON.  [EscapedFromGet name] stands for
    an exception of class [name] that [client.get] raises and that is not
    an [httpx.RequestError], such as [httpx.InvalidURL] for an item id
    that makes no URL. *)
Inductive exn : Type :=
| HTTPException (status_code : Z) (detail : string)
| TimeoutException
| RequestError (message : string)
| HTTPStatusError (status_code : Z)
| JSONDecodeError
| AttributeError
| OverflowError
| EscapedFromGet (name : string).

Inductive result (A : Type) : Type :=
| Return (a : A)
| Raise (e : exn).
Arguments Return {A} a.
Arguments Raise {A} e.

(** A naive [datetime], counted in microseconds. *)
Definition datetime : Type := Z.

(** [float(n)] for a Python [int]: the nearest binary64 number, ties to
    even; an [int] that rounds beyond the largest finite float has no
    conversion ([OverflowError]). *)
Definition float_of_int (n : Z) : option float :=
  match binary_normalize prec emax n 0 false with
  | S754_infinity _ => None
  | sf => Some (SF2Prim sf)
  end.

(** [x * n] for a [float] [x] and an [int] [n]. *)
Definition float_mul_int (x : float) (n : Z) : option float :=
  match float_of_int n with
  | Some y => Some (PrimFloat.mul x y)
  | None => None
  end.

(** The builtin [sum] over floats, from the start value 0, as the
    interpreters before CPython 3.12 compute it: one addition per item,
    left to right. *)
Definition sum_left_to_right (xs : list float) : float :=
  fold_left PrimFloat.add xs 0%float.

(** One item of the compensated summation (Neumaier) that the builtin
    [sum] performs from CPython 3.12 on: the running sum and the running
    compensation. *)
Definition neumaier_step (acc : float * float) (x : float) : float * float :=
  let '(f_result, c) := acc in
  let t := PrimFloat.add f_result x in
  if PrimFloat.leb (PrimFloat.abs x) (PrimFloat.abs f_result) then
    (t, PrimFloat.add c (PrimFloat.add (PrimFloat.sub f_result t) x))
  else
    (t, PrimFloat.add c (PrimFloat.add (PrimFloat.sub x t) f_result)).

(** The builtin [sum] over floats from CPython 3.12 on: the first item is
    added to the start value 0, the others are accumulated with
    [neumaier_step], and the compensation is added at the end when it is
    finite and not zero. *)
Definition sum_compensated (xs : list float) : float :=
  match xs with
  | [] => 0%float
  | x :: rest =>
      let '(f_result, c) :=
        fold_left neumaier_step rest (PrimFloat.add 0%float x, 0%float) in
      if negb (PrimFloat.eqb c 0%float) && PrimFloat.is_finite c
      then PrimFloat.add f_result c
      else f_result
  end.

(** The builtin [sum] over the line totals, followed by the coercion of
    the [total] field to [float] (which turns the [int] 0 of an empty sum
    into 0.0). *)
Definition builtin_sum (compensated : bool) (xs : list float) : float :=
  if compensated then sum_compensated xs else sum_left_to_right xs.

(** A decoded JSON document, as [json.loads] builds it. *)
#[warnings="-register-all"]
Inductive json : Type :=
| JNull
| JBool (b : bool)
| JInt (n : Z)
| JFloat (x : float)
| JString (s : string)
| JArray (elements : list json)
| JObject (fields : list (string * json)).

(** Python's truth value of a decoded JSON document. *)
Definition truthy (v : json) : bool :=
  match v with
  | JNull => false
  | JBool b => b
  | JInt n => negb (n =? 0)
  | JFloat x => negb (PrimFloat.eqb x 0%float)
  | JString s => negb (String.eqb s "")
  | JArray elements => negb (Nat.eqb (length elements) 0)
  | JObject fields => negb (Nat.eqb (length fields) 0)
  end.

(** [d.get(key)] on a decoded JSON object; of two fields with one name the
    later one is the one the decoder keeps. *)
Fixpoint fields_get (key : string) (fields : list (string * json)) : option json :=
  match fields with
  | [] => None
  | (k, v) :: rest =>
      match fields_get key rest with
      | Some w => Some w
      | None => if String.eqb k key then Some v else None
      end
  end.

(** An HTTP response as the order service observes it: the status code and
    the decoded body, [None] when the body is not JSON. *)
Record Response : Type := mkResponse {
  status_code : Z;
  body : option json }.

(** What one [await client.get(...)] towards the catalog does: it returns a
    response, or raises [httpx.TimeoutException], or raises another
    [httpx.RequestError] whose [str] is [message], or raises an exception
    of class [name] that is not an [httpx.RequestError]. *)
Inductive reply : Type :=
| Responded (response : Response)
| TimedOut
| Failed (message : string)
| Escaped (name : string).

(** ** catalog-service *)

Module Catalog.

(** One entry of a tenant's menu (a [dict] with these seven keys). *)
Record MenuItem : Type := mkMenuItem {
  id : string;
  name : string;
  description : string;
  category : string;
  price : float;
  available : bool;
  tenant_id : string }.

(** The module-level store [menu_items]: tenant to list of entries. *)
Abbreviation menu_items_t := (gmap string (list MenuItem)).

(** [_init_sample_data]: the menu of the tenant "forkflow-demo". *)
Definition sample_menu : list MenuItem :=
  [ mkMenuItem "burger-001" "Classic Burger"
      "Beef patty with lettuce, tomato, onion" "burgers" 12.99%float true
      "forkflow-demo";
    mkMenuItem "pizza-001" "Margherita Pizza"
      "Fresh mozzarella, basil, tomato sauce" "pizza" 14.99%float true
      "forkflow-demo";
    mkMenuItem "salad-001" "Caesar Salad"
      "Romaine, parmesan, croutons, caesar dressing" "salads" 9.99%float true
      "forkflow-demo" ].

Definition _init_sample_data (menu_items : menu_items_t) : menu_items_t :=
  <["forkflow-demo" := sample_menu]> menu_items.

(** [get_menu_item]: the first entry of the tenant's menu with the
    requested id. *)
Definition get_menu_item (menu_items : menu_items_t)
    (item_id tenant_id : string) : result MenuItem :=
  match menu_items !! tenant_id with
  | None => Raise (HTTPException 404 ("No menu for tenant: " +:+ tenant_id))
  | Some entries =>
      match List.find (fun i => String.eqb (id i) item_id) entries with
      | None => Raise (HTTPException 404 ("Item " +:+ item_id +:+ " not found"))
      | Some item => Return item
      end
  end.

(** The JSON object the framework sends for a returned entry. *)
Definition item_json (i : MenuItem) : json :=
  JObject [ ("id", JString (id i)); ("name", JString (name i));
            ("description", JString (description i));
            ("category", JString (category i)); ("price", JFloat (price i));
            ("available", JBool (available i));
            ("tenant_id", JString (tenant_id i)) ]%string.

(** The response of [get_menu_item] for a tenant id that
    [get_tenant_id] has let through: 200 with the entry, or the status and
    detail of the raised [HTTPException]. *)
Definition serve_menu_item (menu_items : menu_items_t)
    (item_id tenant_id : string) : Response :=
  match get_menu_item menu_items item_id tenant_id with
  | Return item => mkResponse 200 (Some (item_json item))
  | Raise (HTTPException code detail) =>
      mkResponse code (Some (JObject [("detail"%string, JString detail)]))
  | Raise _ => mkResponse 500 None
  end.

(** [get_tenant_id]: the value of the header [X-Tenant-ID], [None] when
    the request has none. *)
Definition get_tenant_id (x_tenant_id : option string) : result string :=
  match x_tenant_id with
  | None => Raise (HTTPException 400 "X-Tenant-ID header required")
  | Some t =>
      if String.eqb t "" then Raise (HTTPException 400 "X-Tenant-ID header required")
      else Return t
  end.

(** The response to [GET /menu/{item_id}] with the header [X-Tenant-ID]
    (or without it): the dependency [get_tenant_id] is resolved first. *)
Definition get_menu_item_route (menu_items : menu_items_t) (item_id : string)
    (x_tenant_id : option string) : Response :=
  match get_tenant_id x_tenant_id with
  | Return tenant_id => serve_menu_item menu_items item_id tenant_id
  | Raise (HTTPException code detail) =>
      mkResponse code (Some (JObject [("detail"%string, JString detail)]))
  | Raise _ => mkResponse 500 None
  end.

(** The [dict] that [get_menu] returns. *)
Record Menu : Type := mkMenu {
  menu_tenant_id : string;
  menu_items : list MenuItem;
  menu_total : Z }.

(** [get_menu]. *)
Definition get_menu (menu_items : menu_items_t) (tenant_id : string) : result Menu :=
  match menu_items !! tenant_id with
  | None => Raise (HTTPException 404 ("No menu for tenant: " +:+ tenant_id))
  | Some items => Return (mkMenu tenant_id items (Z.of_nat (length items)))
  end.

(** One entry of a tenant's inventory (a [dict] with these two keys). *)
Record Stock : Type := mkStock {
  quantity : Z;
  low_stock_threshold : Z }.

(** The module-level store [inventory]: tenant to item id to stock. *)
Abbreviation inventory_t := (gmap string (gmap string Stock)).

(** The inventory that [_init_sample_data] installs for "forkflow-demo". *)
Definition sample_inventory : gmap string Stock :=
  <["burger-001" := mkStock 50 10]>
    (<["pizza-001" := mkStock 30 5]>
       (<["salad-001" := mkStock 25 5]> ∅)).

(** [data["quantity"] <= data["low_stock_threshold"]]. *)
Definition is_low (data : Stock) : bool :=
  quantity data <=? low_stock_threshold data.

(** The [dict] that [get_inventory] returns. *)
Record Inventory : Type := mkInventory {
  inventory_tenant_id : string;
  inventory_levels : gmap string Stock;
  low_stock_items : list string }.

(** [get_inventory].  The ids of [low_stock_items] come in the order of
    the map's keys where Python gives them in insertion order. *)
Definition get_inventory (inventory : inventory_t) (tenant_id : string)
    : result Inventory :=
  match inventory !! tenant_id with
  | None => Raise (HTTPException 404 ("No inventory for tenant: " +:+ tenant_id))
  | Some inv =>
      let low_stock :=
        (List.filter (fun entry => is_low (snd entry)) (map_to_list inv)).*1 in
      Return (mkInventory tenant_id inv low_stock)
  end.

(** The [dict] that [get_item_inventory] returns. *)
Record ItemInventory : Type := mkItemInventory {
  stock_item_id : string;
  stock_tenant_id : string;
  stock_quantity : Z;
  stock_low_stock_threshold : Z;
  is_low_stock : bool }.

(** [get_item_inventory]. *)
Definition get_item_inventory (inventory : inventory_t) (item_id tenant_id : string)
    : result ItemInventory :=
  match inventory !! tenant_id with
  | None => Raise (HTTPException 404 ("No inventory for item: " +:+ item_id))
  | Some inv =>
      match inv !! item_id with
      | None => Raise (HTTPException 404 ("No inventory for item: " +:+ item_id))
      | Some inv_data =>
          Return (mkItemInventory item_id tenant_id (quantity inv_data)
                    (low_stock_threshold inv_data) (is_low inv_data))
      end
  end.

End Catalog.

(** ** order-service *)

Module OrderService.

Inductive OrderStatus : Type :=
| PENDING
| CONFIRMED
| PREPARING
| READY
| COMPLETED
| CANCELLED.

Record OrderItem : Type := mkOrderItem {
  item_id : string;
  quantity : Z;
  price : float }.

(** The request body of [POST /orders]; its fields carry the prefix
    [req_] to keep them apart from the fields of [Order]. *)
Record CreateOrderRequest : Type := mkCreateOrderRequest {
  req_items : list OrderItem;
  req_customer_name : string;
  req_table_number : option Z;
  req_notes : option string }.

Record Order : Type := mkOrder {
  id : string;
  tenant_id : string;
  customer_name : string;
  table_number : option Z;
  items : list OrderItem;
  total : float;
  status : OrderStatus;
  notes : option string;
  created_at : datetime;
  updated_at : datetime }.

(** The module-level store [orders]: tenant to order id to order. *)
Abbreviation orders_t := (gmap string (gmap string Order)).

(** What the service calls but does not define.  [catalog_get w t i] is
    the outcome, in the world [w], of
    [client.get(CATALOG_SERVICE_URL/menu/i, headers X-Tenant-ID: t)];
    [uuid4] is [str(uuid.uuid4())]; [datetime_now] is [datetime.now()];
    [compensated_sum] tells which builtin [sum] the interpreter has: the
    compensated one of CPython 3.12 and later, or the plain one before. *)
Record Runtime (World : Type) : Type := mkRuntime {
  catalog_get : World -> string -> string -> reply * World;
  uuid4 : World -> string * World;
  datetime_now : World -> datetime * World;
  compensated_sum : bool }.
Arguments mkRuntime {World}.
Arguments catalog_get {World}.
Arguments uuid4 {World}.
Arguments datetime_now {World}.
Arguments compensated_sum {World}.

(** The state a handler runs in.  [issued] is a ghost log of the catalog
    lookups made so far (the calls of [client.get]), oldest first, as
    pairs (tenant, item id). *)
Record State (World : Type) : Type := mkState {
  world : World;
  issued : list (string * string);
  orders : orders_t }.
Arguments mkState {World}.
Arguments world {World}.
Arguments issued {World}.
Arguments orders {World}.

(** State and exception monad: an exception keeps the state reached. *)
Definition M (World A : Type) : Type := State World -> result A * State World.

Definition ret {World A : Type} (a : A) : M World A :=
  fun s => (Return a, s).

Definition bind {World A B : Type} (m : M World A) (k : A -> M World B) : M World B :=
  fun s =>
    match m s with
    | (Return a, s') => k a s'
    | (Raise e, s') => (Raise e, s')
    end.

Definition raise {World A : Type} (e : exn) : M World A :=
  fun s => (Raise e, s).

(** [try: m except e: handler e]; a handler re-raises what it does not
    catch. *)
Definition try_except {World A : Type} (m : M World A) (handler : exn -> M World A)
    : M World A :=
  fun s =>
    match m s with
    | (Return a, s') => (Return a, s')
    | (Raise e, s') => handler e s'
    end.

Notation "x <- m ;; k" := (bind m (fun x => k))
  (at level 100, m at next level, right associativity).

Section Handlers.

Context {World : Type} (rt : Runtime World).

(** [await client.get(...)], logged in [issued]. *)
Definition client_get (tenant_id item_id : string) : M World Response :=
  fun s =>
    let '(r, w) := catalog_get rt (world s) tenant_id item_id in
    let s' := mkState w (issued s ++ [(tenant_id, item_id)]) (orders s) in
    match r with
    | Responded response => (Return response, s')
    | TimedOut => (Raise TimeoutException, s')
    | Failed message => (Raise (RequestError message), s')
    | Escaped name => (Raise (EscapedFromGet name), s')
    end.

(** [response.raise_for_status()]: every status outside 200..299 raises. *)
Definition raise_for_status (response : Response) : M World unit :=
  if (200 <=? status_code response) && (status_code response <=? 299)
  then ret tt
  else raise (HTTPStatusError (status_code response)).

(** [response.json()]. *)
Definition response_json (response : Response) : M World json :=
  match body response with
  | Some document => ret document
  | None => raise JSONDecodeError
  end.

(** [menu_item.get(key)]; only a JSON object has a [get]. *)
Definition json_get (menu_item : json) (key : string) : M World json :=
  match menu_item with
  | JObject fields => ret (default JNull (fields_get key fields))
  | _ => raise AttributeError
  end.

(** The [for item in items] loop of [validate_menu_items]. *)
Fixpoint validate_each (tenant_id : string) (items : list OrderItem) : M World unit :=
  match items with
  | [] => ret tt
  | item :: rest =>
      response <- client_get tenant_id (item_id item) ;;
      if status_code response =? 404 then
        raise (HTTPException 400 ("Item " +:+ item_id item +:+ " not found in menu"))
      else
        _ <- raise_for_status response ;;
        menu_item <- response_json response ;;
        available <- json_get menu_item "available" ;;
        if negb (truthy available) then
          raise (HTTPException 400 ("Item " +:+ item_id item +:+ " is not available"))
        else
          validate_each tenant_id rest
  end.

(** The two [except] clauses of [validate_menu_items]. *)
Definition on_httpx_error (e : exn) : M World bool :=
  match e with
  | TimeoutException =>
      raise (HTTPException 503 "Catalog service unavailable (timeout)")
  | RequestError message =>
      raise (HTTPException 503 ("Catalog service unavailable: " +:+ message))
  | _ => raise e
  end.

Definition validate_menu_items (tenant_id : string) (items : list OrderItem)
    : M World bool :=
  try_except
    (_ <- validate_each tenant_id items ;; ret true)
    on_httpx_error.

(** [item.price * item.quantity for item in items], left to right. *)
Fixpoint line_totals (items : list OrderItem) : option (list float) :=
  match items with
  | [] => Some []
  | item :: rest =>
      match float_mul_int (price item) (quantity item) with
      | None => None
      | Some x =>
          match line_totals rest with
          | None => None
          | Some xs => Some (x :: xs)
          end
      end
  end.

(** [total = sum(item.price * item.quantity for item in request.items)]. *)
Definition order_total (items : list OrderItem) : M World float :=
  match line_totals items with
  | Some xs => ret (builtin_sum (compensated_sum rt) xs)
  | None => raise OverflowError
  end.

(** The store's insertion, lines 274-276:
    [if tenant_id not in orders: orders[tenant_id] = {}]
    [orders[tenant_id][order_id] = order]. *)
Definition store_order (tenant_id order_id : string) (order : Order)
    (db : orders_t) : orders_t :=
  let db1 :=
    match db !! tenant_id with
    | None => <[tenant_id := ∅]> db
    | Some _ => db
    end in
  <[tenant_id := <[order_id := order]> (default ∅ (db1 !! tenant_id))]> db1.

Definition set_orders (f : orders_t -> orders_t) : M World unit :=
  fun s => (Return tt, mkState (world s) (issued s) (f (orders s))).

Definition call_uuid4 : M World string :=
  fun s =>
    let '(u, w) := uuid4 rt (world s) in
    (Return u, mkState w (issued s) (orders s)).

Definition call_datetime_now : M World datetime :=
  fun s =>
    let '(t, w) := datetime_now rt (world s) in
    (Return t, mkState w (issued s) (orders s)).

(** [POST /orders]. *)
Definition create_order (request : CreateOrderRequest) (tenant_id : string)
    : M World Order :=
  _ <- validate_menu_items tenant_id (req_items request) ;;
  total <- order_total (req_items request) ;;
  order_id <- call_uuid4 ;;
  now <- call_datetime_now ;;
  let order :=
    {| id := order_id;
       tenant_id := tenant_id;
       customer_name := req_customer_name request;
       table_number := req_table_number request;
       items := req_items request;
       total := total;
       status := PENDING;
       notes := req_notes request;
       created_at := now;
       updated_at := now |} in
  _ <- set_orders (store_order tenant_id order_id order) ;;
  ret order.

(** [orders[tenant_id][order_id]] when both keys are present. *)
Definition find_order (db : orders_t) (tenant_id order_id : string) : option Order :=
  match db !! tenant_id with
  | None => None
  | Some tenant_orders => tenant_orders !! order_id
  end.

(** [GET /orders]: [list(orders[tenant_id].values())], or [[]] for a
    tenant that is not a key of [orders].  The values come in the order of
    the map's keys where Python gives them in insertion order; the list
    holds the same orders either way. *)
Definition get_orders (tenant_id : string) : M World (list Order) :=
  fun s =>
    match orders s !! tenant_id with
    | None => (Return [], s)
    | Some tenant_orders => (Return (map_to_list tenant_orders).*2, s)
    end.

(** [GET /orders/{order_id}]. *)
Definition get_order (order_id tenant_id : string) : M World Order :=
  fun s =>
    match find_order (orders s) tenant_id order_id with
    | None => (Raise (HTTPException 404 ("Order " +:+ order_id +:+ " not found")), s)
    | Some order => (Return order, s)
    end.

(** [order.status = status; order.updated_at = datetime.now()] on the
    object held by the store. *)
Definition restamp (order : Order) (new_status : OrderStatus) (now : datetime) : Order :=
  {| id := id order;
     tenant_id := tenant_id order;
     customer_name := customer_name order;
     table_number := table_number order;
     items := items order;
     total := total order;
     status := new_status;
     notes := notes order;
     created_at := created_at order;
     updated_at := now |}.

(** [PATCH /orders/{order_id}/status].  The order is mutated in place, so
    the store holds the order that is returned: the mutated order is
    written back under its tenant and id. *)
Definition update_order_status (order_id : string) (new_status : OrderStatus)
    (tenant_id : string) : M World Order :=
  fun s =>
    match find_order (orders s) tenant_id order_id with
    | None => (Raise (HTTPException 404 ("Order " +:+ order_id +:+ " not found")), s)
    | Some order =>
        (now <- call_datetime_now ;;
         let order' := restamp order new_status now in
         _ <- set_orders (store_order tenant_id order_id order') ;;
         ret order') s
    end.

End Handlers.

(** [get_tenant_id]: the value of the header [X-Tenant-ID], [None] when
    the request has none. *)
Definition get_tenant_id (x_tenant_id : option string) : result string :=
  match x_tenant_id with
  | None => Raise (HTTPException 400 "X-Tenant-ID header required")
  | Some t =>
      if String.eqb t "" then Raise (HTTPException 400 "X-Tenant-ID header required")
      else Return t
  end.

Section Routes.

Context {World : Type} (rt : Runtime World).

(** [tenant_id: str = Depends(get_tenant_id)]: the dependency is resolved
    before the body of the handler runs. *)
Definition depends_get_tenant_id {A : Type} (x_tenant_id : option string)
    (handler : string -> M World A) : M World A :=
  match get_tenant_id x_tenant_id with
  | Return tenant_id => handler tenant_id
  | Raise e => raise e
  end.

(** The four routes, from the header on. *)
Definition post_orders (request : CreateOrderRequest) (x_tenant_id : option string)
    : M World Order :=
  depends_get_tenant_id x_tenant_id (create_order rt request).

Definition get_orders_route (x_tenant_id : option string) : M World (list Order) :=
  depends_get_tenant_id x_tenant_id get_orders.

Definition get_order_route (order_id : string) (x_tenant_id : option string)
    : M World Order :=
  depends_get_tenant_id x_tenant_id (get_order order_id).

Definition patch_order_status (order_id : string) (new_status : OrderStatus)
    (x_tenant_id : option string) : M World Order :=
  depends_get_tenant_id x_tenant_id (update_order_status rt order_id new_status).

(** A request to the service, and the state it leaves. *)
Inductive call : Type :=
| PostOrders (request : CreateOrderRequest) (x_tenant_id : option string)
| GetOrders (x_tenant_id : option string)
| GetOrder (order_id : string) (x_tenant_id : option string)
| PatchOrderStatus (order_id : string) (new_status : OrderStatus)
    (x_tenant_id : option string).

Definition header_of (c : call) : option string :=
  match c with
  | PostOrders _ x => x
  | GetOrders x => x
  | GetOrder _ x => x
  | PatchOrderStatus _ _ x => x
  end.

Definition serve (c : call) (s : State World) : State World :=
  match c with
  | PostOrders request x => snd (post_orders request x s)
  | GetOrders x => snd (get_orders_route x s)
  | GetOrder order_id x => snd (get_order_route order_id x s)
  | PatchOrderStatus order_id new_status x =>
      snd (patch_order_status order_id new_status x s)
  end.

(** The requests of [calls] served one after the other. *)
Definition serve_all (calls : list call) (s : State World) : State World :=
  fold_left (fun s c => serve c s) calls s.

End Routes.

End OrderService.

(** ** A deployment to run the handlers in

    The order service talking to the catalog service of this repository
    over a scripted network, with a scripted UUID generator and a scripted
    wall clock. *)

Module Deployment.
Import OrderService.

(** [network] decides the next lookups, oldest first: [None] delivers the
    request to the catalog handler, [Some r] makes the transport answer
    [r] instead; once it is used up every request is delivered.  A
    delivered lookup reaches the route [GET /menu/{item_id}] with the item
    id of the line, which is what the URL built from it does when the id
    is a plain path segment (see [plain]); the deployment is meant for
    such ids.  [uuids] and [clock] are the next results of [uuid4] and
    [datetime.now]. *)
Record Sim : Type := mkSim {
  menu_items : Catalog.menu_items_t;
  network : list (option reply);
  uuids : list string;
  clock : list datetime }.

Definition sim_catalog_get (w : Sim) (tenant_id item_id : string) : reply * Sim :=
  let served :=
    Responded (Catalog.get_menu_item_route (menu_items w) item_id (Some tenant_id)) in
  match network w with
  | [] => (served, w)
  | None :: rest => (served, mkSim (menu_items w) rest (uuids w) (clock w))
  | Some r :: rest => (r, mkSim (menu_items w) rest (uuids w) (clock w))
  end.

Definition sim_uuid4 (w : Sim) : string * Sim :=
  match uuids w with
  | [] => ("00000000-0000-4000-8000-000000000000"%string, w)
  | u :: rest => (u, mkSim (menu_items w) (network w) rest (clock w))
  end.

Definition sim_datetime_now (w : Sim) : datetime * Sim :=
  match clock w with
  | [] => (0, w)
  | t :: rest => (t, mkSim (menu_items w) (network w) (uuids w) rest)
  end.

(** The deployment on an interpreter with the plain [sum]. *)
Definition sim : Runtime Sim :=
  mkRuntime sim_catalog_get sim_uuid4 sim_datetime_now false.

(** The deployment on an interpreter with the compensated [sum]. *)
Definition sim312 : Runtime Sim :=
  mkRuntime sim_catalog_get sim_uuid4 sim_datetime_now true.

(** The catalog after start-up, extended by a second tenant whose only
    entry shares its id with an entry of the first and is switched off. *)
Definition demo_menu : Catalog.menu_items_t :=
  <["riverside" :=
      [Catalog.mkMenuItem "burger-001" "Veggie Burger" "Bean patty" "burgers"
         11.5%float false "riverside"]]>
    (Catalog._init_sample_data ∅).

Definition start (network : list (option reply)) (uuids : list string)
    (clock : list datetime) : State Sim :=
  mkState (mkSim demo_menu network uuids clock) [] ∅.

Definition two_burgers : CreateOrderRequest :=
  mkCreateOrderRequest [mkOrderItem "burger-001" 2 12.99%float] "Ada" (Some 4) None.

Definition burger_ghost_pizza : CreateOrderRequest :=
  mkCreateOrderRequest
    [ mkOrderItem "burger-001" 2 12.99%float;
      mkOrderItem "ghost-999" 1 3%float;
      mkOrderItem "pizza-001" 1 14.99%float ]
    "Ada" None None.

(** Three lines whose prices are not those of the menu. *)
Definition three_lines : CreateOrderRequest :=
  mkCreateOrderRequest
    [ mkOrderItem "burger-001" 1 0.1%float;
      mkOrderItem "pizza-001" 2 0.1%float;
      mkOrderItem "salad-001" 1 0.3%float ]
    "Ada" None None.

Definition one_pizza : CreateOrderRequest :=
  mkCreateOrderRequest [mkOrderItem "pizza-001" 1 14.99%float] "Grace" None None.

Definition no_lines : CreateOrderRequest :=
  mkCreateOrderRequest [] "Ada" None (Some "nothing yet"%string).

Definition veggie_burger : Catalog.MenuItem :=
  Catalog.mkMenuItem "burger-001" "Veggie Burger" "Bean patty" "burgers"
    11.5%float false "riverside".

(** The order that [no_lines] becomes under "riverside" with id "u1" at
    time 50, and the state after its creation. *)
Definition riverside_order : Order :=
  mkOrder "u1" "riverside" "Ada" None [] 0%float PENDING
    (Some "nothing yet"%string) 50 50.

Definition after_riverside_order (uuids : list string) (clock : list datetime)
    : State Sim :=
  snd (create_order sim no_lines "riverside" (start [] uuids clock)).

Definition burger : Catalog.MenuItem :=
  Catalog.mkMenuItem "burger-001" "Classic Burger"
    "Beef patty with lettuce, tomato, onion" "burgers" 12.99%float true
    "forkflow-demo".

Definition pizza : Catalog.MenuItem :=
  Catalog.mkMenuItem "pizza-001" "Margherita Pizza"
    "Fresh mozzarella, basil, tomato sauce" "pizza" 14.99%float true
    "forkflow-demo".

Definition demo : string := "forkflow-demo".

(** The order that [two_burgers] becomes with id "u1" at time 100. *)
Definition first_order : Order :=
  mkOrder "u1" demo "Ada" (Some 4) [mkOrderItem "burger-001" 2 12.99%float]
    25.98%float PENDING None 100 100.

(** The state after [two_burgers] has been created for "forkflow-demo". *)
Definition after_first_order (network : list (option reply)) (uuids : list string)
    (clock : list datetime) : State Sim :=
  snd (create_order sim two_burgers "forkflow-demo" (start network uuids clock)).

(** A request for more burgers than a [float] can count. *)
Definition too_many_burgers : CreateOrderRequest :=
  mkCreateOrderRequest [mkOrderItem "burger-001" (2 ^ 1024) 12.99%float]
    "Ada" None None.

(** The inventory after start-up, with the salad run down to its
    threshold. *)
Definition demo_inventory : Catalog.inventory_t :=
  <["forkflow-demo" := <["salad-001" := Catalog.mkStock 5 5]> Catalog.sample_inventory]> ∅.

End Deployment.

(** ** Vocabulary of the properties *)

Section Vocabulary.
Import OrderService.

Context {World : Type} (rt : Runtime World).

(** The replies the world gives to lookups of [ids] sent one after the
    other under [tenant_id], and the world they leave. *)
Fixpoint lookups (w : World) (tenant_id : string) (ids : list string)
    : list reply * World :=
  match ids with
  | [] => ([], w)
  | i :: rest =>
      let '(r, w1) := catalog_get rt w tenant_id i in
      let '(rs, w2) := lookups w1 tenant_id rest in
      (r :: rs, w2)
  end.

Definition answers (w : World) (tenant_id : string) (ids : list string) : list reply :=
  fst (lookups w tenant_id ids).

(** The state after the lookups of [ids] have been sent from [s]. *)
Definition after_lookups (s : State World) (tenant_id : string) (ids : list string)
    : State World :=
  mkState (snd (lookups (world s) tenant_id ids))
          (issued s ++ (pair tenant_id <$> ids))
          (orders s).

End Vocabulary.

(** The three answers of the catalog, as the catalog service sends them:
    the entry itself with status 200, or status 404. *)
Definition found_available (r : reply) : Prop :=
  exists i, r = Responded (mkResponse 200 (Some (Catalog.item_json i)))
            /\ Catalog.available i = true.

Definition found_unavailable (r : reply) : Prop :=
  exists i, r = Responded (mkResponse 200 (Some (Catalog.item_json i)))
            /\ Catalog.available i = false.

Definition not_found (r : reply) : Prop :=
  exists b, r = Responded (mkResponse 404 b).





(** An answer that lets the validation loop go on to the next line: a
    response with a status from 200 to 299 whose body is a JSON object
    with a true [available]. *)
Definition accepted (r : reply) : Prop :=
  exists (code : Z) (fields : list (string * json)),
    r = Responded (mkResponse code (Some (JObject fields)))
    /\ 200 <= code <= 299
    /\ truthy (default JNull (fields_get "available" fields)) = true.

(** The exceptions with which the loop of [validate_menu_items] stops. *)
Definition loop_exn (e : exn) : Prop :=
  e = TimeoutException
  \/ (exists message, e = RequestError message)
  \/ (exists detail, e = HTTPException 400 detail)
  \/ (exists code, e = HTTPStatusError code /\ ~ (200 <= code <= 299))
  \/ e = JSONDecodeError
  \/ e = AttributeError
  \/ (exists name, e = EscapedFromGet name).

(** Two orders that differ at most in [status] and [updated_at]. *)
Definition same_content (o o' : OrderService.Order) : Prop :=
  OrderService.id o' = OrderService.id o
  /\ OrderService.tenant_id o' = OrderService.tenant_id o
  /\ OrderService.customer_name o' = OrderService.customer_name o
  /\ OrderService.table_number o' = OrderService.table_number o
  /\ OrderService.items o' = OrderService.items o
  /\ OrderService.total o' = OrderService.total o
  /\ OrderService.notes o' = OrderService.notes o
  /\ OrderService.created_at o' = OrderService.created_at o.

(** Every stored order sits under its own tenant and its own id. *)
Definition store_ok (db : OrderService.orders_t) : Prop :=
  forall t i o, OrderService.find_order db t i = Some o ->
                OrderService.tenant_id o = t /\ OrderService.id o = i.

(** ** Properties *)

Section Properties.
Import OrderService.

Context {World : Type} (rt : Runtime World).

(** *** The lookups of a validation *)

Lemma lookups_app (w : World) (t : string) (ids1 ids2 : list string) :
  lookups rt w t (ids1 ++ ids2) =
  (fst (lookups rt w t ids1) ++ fst (lookups rt (snd (lookups rt w t ids1)) t ids2),
   snd (lookups rt (snd (lookups rt w t ids1)) t ids2)).
Proof.
  revert w. induction ids1 as [|i ids1 IH]; intros w; simpl.
  - by destruct (lookups rt w t ids2).
  - destruct (catalog_get rt w t i) as [r w1]. rewrite IH.
    destruct (lookups rt w1 t ids1) as [rs w2]; simpl.
    by destruct (lookups rt w2 t ids2).
Qed.

Lemma after_lookups_nil (s : State World) (t : string) :
  after_lookups rt s t [] = s.
Proof. destruct s. unfold after_lookups. simpl. by rewrite app_nil_r. Qed.

Lemma after_lookups_cons (s : State World) (t i : string) (ids : list string) :
  after_lookups rt s t (i :: ids) =
  after_lookups rt
    (mkState (snd (catalog_get rt (world s) t i)) (issued s ++ [(t, i)]) (orders s))
    t ids.
Proof.
  unfold after_lookups. simpl.
  destruct (catalog_get rt (world s) t i) as [r w1]. simpl.
  destruct (lookups rt w1 t ids) as [rs w2]. simpl.
  by rewrite <- app_assoc.
Qed.

Lemma after_lookups_app (s : State World) (t : string) (ids1 ids2 : list string) :
  after_lookups rt s t (ids1 ++ ids2) =
  after_lookups rt (after_lookups rt s t ids1) t ids2.
Proof.
  revert s. induction ids1 as [|i ids1 IH]; intros s.
  - by rewrite after_lookups_nil.
  - simpl. by rewrite !after_lookups_cons, IH.
Qed.

(** The answers to a prefix followed by one more lookup, taken apart. *)
Lemma answers_snoc (w : World) (t : string) (ids : list string) (i : string)
    (rs : list reply) (r : reply) :
  answers rt w t (ids ++ [i]) = rs ++ [r] ->
  answers rt w t ids = rs /\
  fst (catalog_get rt (snd (lookups rt w t ids)) t i) = r.
Proof.
  unfold answers. rewrite lookups_app. simpl.
  destruct (catalog_get rt (snd (lookups rt w t ids)) t i) as [r' w']. simpl.
  intros H. apply app_inj_tail in H. tauto.
Qed.

(** One turn of the loop, by the kind of answer it receives. *)
Lemma validate_each_step_ok (t : string) (item : OrderItem) (rest : list OrderItem)
    (s : State World) :
  found_available (fst (catalog_get rt (world s) t (item_id item))) ->
  validate_each rt t (item :: rest) s =
  validate_each rt t rest (after_lookups rt s t [item_id item]).
Proof.
  intros (i & Hr & Hav). rewrite after_lookups_cons, after_lookups_nil.
  simpl. unfold bind at 1. unfold client_get.
  destruct (catalog_get rt (world s) t (item_id item)) as [r w1]. simpl in *.
  subst r. simpl. unfold bind, raise_for_status, response_json, json_get, ret. simpl.
  rewrite Hav. reflexivity.
Qed.

Lemma validate_each_step_unavailable (t : string) (item : OrderItem)
    (rest : list OrderItem) (s : State World) :
  found_unavailable (fst (catalog_get rt (world s) t (item_id item))) ->
  validate_each rt t (item :: rest) s =
  (Raise (HTTPException 400 ("Item " +:+ item_id item +:+ " is not available")),
   after_lookups rt s t [item_id item]).
Proof.
  intros (i & Hr & Hav). rewrite after_lookups_cons, after_lookups_nil.
  simpl. unfold bind at 1. unfold client_get.
  destruct (catalog_get rt (world s) t (item_id item)) as [r w1]. simpl in *.
  subst r. simpl. unfold bind, raise_for_status, response_json, json_get, ret. simpl.
  rewrite Hav. reflexivity.
Qed.

Lemma validate_each_step_not_found (t : string) (item : OrderItem)
    (rest : list OrderItem) (s : State World) :
  not_found (fst (catalog_get rt (world s) t (item_id item))) ->
  validate_each rt t (item :: rest) s =
  (Raise (HTTPException 400 ("Item " +:+ item_id item +:+ " not found in menu")),
   after_lookups rt s t [item_id item]).
Proof.
  intros (b & Hr). rewrite after_lookups_cons, after_lookups_nil.
  simpl. unfold bind at 1. unfold client_get.
  destruct (catalog_get rt (world s) t (item_id item)) as [r w1]. simpl in *.
  subst r. reflexivity.
Qed.

Lemma validate_each_step_timeout (t : string) (item : OrderItem)
    (rest : list OrderItem) (s : State World) :
  fst (catalog_get rt (world s) t (item_id item)) = TimedOut ->
  validate_each rt t (item :: rest) s =
  (Raise TimeoutException, after_lookups rt s t [item_id item]).
Proof.
  intros Hr. rewrite after_lookups_cons, after_lookups_nil.
  simpl. unfold bind at 1. unfold client_get.
  destruct (catalog_get rt (world s) t (item_id item)) as [r w1]. simpl in *.
  subst r. reflexivity.
Qed.

Lemma validate_each_step_failed (t : string) (item : OrderItem)
    (rest : list OrderItem) (s : State World) (message : string) :
  fst (catalog_get rt (world s) t (item_id item)) = Failed message ->
  validate_each rt t (item :: rest) s =
  (Raise (RequestError message), after_lookups rt s t [item_id item]).
Proof.
  intros Hr. rewrite after_lookups_cons, after_lookups_nil.
  simpl. unfold bind at 1. unfold client_get.
  destruct (catalog_get rt (world s) t (item_id item)) as [r w1]. simpl in *.
  subst r. reflexivity.
Qed.

(** The loop runs through a prefix of lines that are all found and
    available, one lookup per line, and goes on with the rest. *)
Lemma validate_each_prefix_ok (t : string) (pre rest : list OrderItem)
    (s : State World) :
  Forall found_available (answers rt (world s) t (item_id <$> pre)) ->
  validate_each rt t (pre ++ rest) s =
  validate_each rt t rest (after_lookups rt s t (item_id <$> pre)).
Proof.
  revert s. induction pre as [|item pre IH]; intros s Hall.
  - simpl. by rewrite after_lookups_nil.
  - unfold answers in Hall. simpl in Hall.
    destruct (catalog_get rt (world s) t (item_id item)) as [r w1] eqn:Hget.
    fold (@fmap list _ _ _ item_id pre) in Hall.
    destruct (lookups rt w1 t (item_id <$> pre)) as [rs w2] eqn:Hrest.
    simpl in Hall. apply Forall_cons in Hall as [Hr Hrs].
    change ((item :: pre) ++ rest) with (item :: (pre ++ rest)).
    rewrite validate_each_step_ok by (rewrite Hget; exact Hr).
    rewrite IH.
    + change (item_id <$> item :: pre) with ([item_id item] ++ (item_id <$> pre)).
      by rewrite after_lookups_app.
    + rewrite after_lookups_cons, after_lookups_nil. simpl.
      rewrite Hget. simpl. unfold answers. rewrite Hrest. exact Hrs.
Qed.

(** Where the loop stands when the answers to [pre ++ [item]] are [rs]
    followed by [r] and [rs] are all found and available. *)
Lemma validate_each_reaches (t : string) (pre : list OrderItem) (item : OrderItem)
    (post : list OrderItem) (rs : list reply) (r : reply) (s : State World) :
  answers rt (world s) t (item_id <$> (pre ++ [item])) = rs ++ [r] ->
  Forall found_available rs ->
  validate_each rt t (pre ++ item :: post) s =
  validate_each rt t (item :: post) (after_lookups rt s t (item_id <$> pre))
  /\ fst (catalog_get rt (world (after_lookups rt s t (item_id <$> pre))) t
            (item_id item)) = r.
Proof.
  intros Hans Hrs. rewrite fmap_app in Hans. simpl in Hans.
  apply answers_snoc in Hans as [Hpre Hr]. subst rs.
  split; [by apply validate_each_prefix_ok | exact Hr].
Qed.

Lemma after_lookups_snoc (s : State World) (t : string) (pre : list OrderItem)
    (item : OrderItem) :
  after_lookups rt (after_lookups rt s t (item_id <$> pre)) t [item_id item] =
  after_lookups rt s t (item_id <$> (pre ++ [item])).
Proof. by rewrite fmap_app, after_lookups_app. Qed.

(** No turn of the loop touches the order store. *)
Lemma validate_each_orders (t : string) (items : list OrderItem) (s : State World) :
  orders (snd (validate_each rt t items s)) = orders s.
Proof.
  revert s. induction items as [|item rest IH]; intros s; [done|].
  simpl. unfold bind at 1. unfold client_get.
  destruct (catalog_get rt (world s) t (item_id item)) as [r w1].
  destruct r as [response| |message|name]; [|done|done|done].
  destruct (status_code response =? 404); [done|].
  unfold bind at 1. unfold raise_for_status.
  destruct ((200 <=? status_code response) && (status_code response <=? 299)); [|done].
  unfold ret at 1. unfold bind at 1. unfold response_json.
  destruct (body response) as [document|]; [|done].
  unfold ret at 1. unfold bind at 1. unfold json_get.
  destruct document; try done.
  unfold ret at 1.
  destruct (negb (truthy (default JNull (fields_get "available" fields)))); [done|].
  by rewrite IH.
Qed.

Lemma validate_menu_items_orders (t : string) (items : list OrderItem)
    (s : State World) :
  orders (snd (validate_menu_items rt t items s)) = orders s.
Proof.
  unfold validate_menu_items, try_except, bind.
  pose proof (validate_each_orders t items s) as H.
  destruct (validate_each rt t items s) as [[[]|e] s1]; simpl in *; [done|].
  by destruct e.
Qed.

(** The verdict of [validate_menu_items] from the outcome of its loop. *)
Lemma validate_menu_items_of_loop (t : string) (items : list OrderItem)
    (s s1 : State World) (r : result unit) :
  validate_each rt t items s = (r, s1) ->
  validate_menu_items rt t items s =
  match r with
  | Return _ => (Return true, s1)
  | Raise e => on_httpx_error e s1
  end.
Proof.
  intros H. unfold validate_menu_items, try_except, bind. rewrite H.
  by destruct r.
Qed.

(** *** The order store *)

Lemma find_order_store_order_eq (t i : string) (o : Order) (db : orders_t) :
  find_order (store_order t i o db) t i = Some o.
Proof.
  unfold find_order, store_order.
  destruct (db !! t); by rewrite !lookup_insert_eq.
Qed.

Lemma find_order_store_order_ne (t i t' i' : string) (o : Order) (db : orders_t) :
  (t', i') <> (t, i) ->
  find_order (store_order t i o db) t' i' = find_order db t' i'.
Proof.
  intros Hne. unfold find_order, store_order.
  destruct (decide (t' = t)) as [->|Ht].
  - assert (i' <> i) as Hi by congruence.
    destruct (db !! t) as [d|] eqn:Hd; rewrite !lookup_insert_eq; simpl.
    + by rewrite Hd, lookup_insert_ne.
    + by rewrite lookup_insert_ne, lookup_empty.
  - destruct (db !! t); by rewrite !lookup_insert_ne.
Qed.

Lemma store_ok_empty : store_ok ∅.
Proof. intros t i o. unfold find_order. by rewrite lookup_empty. Qed.

Lemma store_ok_store_order (t i : string) (o : Order) (db : orders_t) :
  store_ok db -> tenant_id o = t -> id o = i ->
  store_ok (store_order t i o db).
Proof.
  intros Hok Ht Hi t' i' o' Hfind.
  destruct (decide ((t', i') = (t, i))) as [Heq|Hne].
  - injection Heq as -> ->. rewrite find_order_store_order_eq in Hfind.
    by injection Hfind as <-.
  - rewrite find_order_store_order_ne in Hfind by done. by apply Hok.
Qed.

(** *** [create_order], step by step *)

Lemma create_order_unfold (request : CreateOrderRequest) (t : string)
    (s : State World) :
  create_order rt request t s =
  match validate_menu_items rt t (req_items request) s with
  | (Raise e, s1) => (Raise e, s1)
  | (Return _, s1) =>
      match line_totals (req_items request) with
      | None => (Raise OverflowError, s1)
      | Some xs =>
          let u := uuid4 rt (world s1) in
          let n := datetime_now rt (snd u) in
          let o := mkOrder (fst u) t (req_customer_name request)
                     (req_table_number request) (req_items request)
                     (builtin_sum (compensated_sum rt) xs) PENDING
                     (req_notes request) (fst n) (fst n) in
          (Return o,
           mkState (snd n) (issued s1) (store_order t (fst u) o (orders s1)))
      end
  end.
Proof.
  unfold create_order. unfold bind at 1.
  destruct (validate_menu_items rt t (req_items request) s) as [[b|e] s1]; [|done].
  unfold bind at 1. unfold order_total.
  destruct (line_totals (req_items request)) as [xs|]; [|done].
  unfold ret at 1. unfold bind at 1. unfold call_uuid4.
  destruct (uuid4 rt (world s1)) as [u w1]. simpl.
  unfold bind at 1. unfold call_datetime_now. simpl.
  destruct (datetime_now rt w1) as [n w2]. simpl.
  reflexivity.
Qed.

Lemma validate_menu_items_nil (t : string) (s : State World) :
  validate_menu_items rt t [] s = (Return true, s).
Proof. reflexivity. Qed.

Lemma line_totals_Forall2 (items : list OrderItem) (xs : list float) :
  line_totals items = Some xs ->
  Forall2 (fun item x => float_mul_int (price item) (quantity item) = Some x) items xs.
Proof.
  revert xs. induction items as [|item rest IH]; intros xs H; simpl in H.
  - injection H as <-. constructor.
  - destruct (float_mul_int (price item) (quantity item)) as [x|] eqn:Hx; [|done].
    destruct (line_totals rest) as [ys|]; [|done].
    injection H as <-. constructor; [done | by apply IH].
Qed.

Lemma Forall2_line_totals (items : list OrderItem) (xs : list float) :
  Forall2 (fun item x => float_mul_int (price item) (quantity item) = Some x) items xs ->
  line_totals items = Some xs.
Proof.
  induction 1 as [|item x rest xs Hx _ IH]; simpl; [done|].
  by rewrite Hx, IH.
Qed.

(** *** Validation *)

(** C2. Validation looks the lines up in line order and stops at the first
    line that is not found or found but not available: when the answers to
    the lines [pre] are all found-and-available and the answer to the next
    line [item] is not-found (or found-but-unavailable), the verdict is the
    400 rejection "Item <id> not found in menu" (or "Item <id> is not
    available") with the id of [item], and the lookups sent are exactly
    those of [pre] and [item], in that order, none for the later lines
    [post].  When every line is found and available the verdict is [True]
    after one lookup per line, in line order. *)
Theorem validation_is_sequential_and_short_circuits
    (tenant_id : string) (items : list OrderItem) (s : State World) :
  items <> [] ->
  (Forall found_available (answers rt (world s) tenant_id (item_id <$> items)) ->
   validate_menu_items rt tenant_id items s =
   (Return true, after_lookups rt s tenant_id (item_id <$> items)))
  /\
  (forall (pre : list OrderItem) (item : OrderItem) (post : list OrderItem)
          (rs : list reply) (r : reply),
     items = pre ++ item :: post ->
     answers rt (world s) tenant_id (item_id <$> (pre ++ [item])) = rs ++ [r] ->
     Forall found_available rs ->
     (not_found r ->
      validate_menu_items rt tenant_id items s =
      (Raise (HTTPException 400 ("Item " +:+ item_id item +:+ " not found in menu")),
       after_lookups rt s tenant_id (item_id <$> (pre ++ [item]))))
     /\
     (found_unavailable r ->
      validate_menu_items rt tenant_id items s =
      (Raise (HTTPException 400 ("Item " +:+ item_id item +:+ " is not available")),
       after_lookups rt s tenant_id (item_id <$> (pre ++ [item]))))).
Proof.
  intros _. split.
  - intros Hall.
    apply (validate_menu_items_of_loop _ _ _ _ (Return tt)).
    rewrite <- (app_nil_r items) at 1.
    by rewrite validate_each_prefix_ok.
  - intros pre item post rs r -> Hans Hrs.
    destruct (validate_each_reaches _ _ _ post _ _ _ Hans Hrs) as [Hrun Hr].
    split; intros Hbad.
    + rewrite (validate_menu_items_of_loop _ _ _
                 (after_lookups rt s tenant_id (item_id <$> (pre ++ [item])))
                 (Raise (HTTPException 400
                           ("Item " +:+ item_id item +:+ " not found in menu")))); [done|].
      rewrite Hrun, validate_each_step_not_found by (by rewrite Hr).
      by rewrite after_lookups_snoc.
    + rewrite (validate_menu_items_of_loop _ _ _
                 (after_lookups rt s tenant_id (item_id <$> (pre ++ [item])))
                 (Raise (HTTPException 400
                           ("Item " +:+ item_id item +:+ " is not available")))); [done|].
      rewrite Hrun, validate_each_step_unavailable by (by rewrite Hr).
      by rewrite after_lookups_snoc.
Qed.

(** C3. When the lookups before a line are all found and available and the
    lookup of that line times out, validation raises the 503
    "Catalog service unavailable (timeout)"; when it fails in the transport
    with message [m], validation raises the 503
    "Catalog service unavailable: m".  Both carry status 503, not the 400
    of a rejection, and [create_order] ends with them as they are; more
    generally, whatever exception validation raises, [create_order] raises
    that same exception in that same state. *)
Theorem transport_failures_surface_as_unavailable
    (request : CreateOrderRequest) (tenant_id : string)
    (pre : list OrderItem) (item : OrderItem) (post : list OrderItem)
    (rs : list reply) (r : reply) (s : State World) :
  req_items request = pre ++ item :: post ->
  answers rt (world s) tenant_id (item_id <$> (pre ++ [item])) = rs ++ [r] ->
  Forall found_available rs ->
  let s1 := after_lookups rt s tenant_id (item_id <$> (pre ++ [item])) in
  (r = TimedOut ->
   let e := HTTPException 503 "Catalog service unavailable (timeout)" in
   validate_menu_items rt tenant_id (req_items request) s = (Raise e, s1)
   /\ create_order rt request tenant_id s = (Raise e, s1))
  /\
  (forall message : string, r = Failed message ->
   let e := HTTPException 503 ("Catalog service unavailable: " +:+ message) in
   validate_menu_items rt tenant_id (req_items request) s = (Raise e, s1)
   /\ create_order rt request tenant_id s = (Raise e, s1))
  /\
  (forall (e : exn) (s' : State World),
   validate_menu_items rt tenant_id (req_items request) s = (Raise e, s') ->
   create_order rt request tenant_id s = (Raise e, s')).
Proof.
  intros Hitems Hans Hrs s1.
  assert (forall (e : exn) (s' : State World),
            validate_menu_items rt tenant_id (req_items request) s = (Raise e, s') ->
            create_order rt request tenant_id s = (Raise e, s')) as Hprop.
  { intros e s' Hv. by rewrite create_order_unfold, Hv. }
  destruct (validate_each_reaches _ _ _ post _ _ _ Hans Hrs) as [Hrun Hr].
  split; [|split; [|exact Hprop]].
  - intros -> e.
    assert (validate_menu_items rt tenant_id (req_items request) s = (Raise e, s1)) as Hv.
    { rewrite Hitems.
      rewrite (validate_menu_items_of_loop _ _ _ s1 (Raise TimeoutException)); [done|].
      rewrite Hrun, validate_each_step_timeout by done.
      unfold s1. by rewrite after_lookups_snoc. }
    split; [exact Hv | by apply Hprop].
  - intros message -> e.
    assert (validate_menu_items rt tenant_id (req_items request) s = (Raise e, s1)) as Hv.
    { rewrite Hitems.
      rewrite (validate_menu_items_of_loop _ _ _ s1 (Raise (RequestError message))); [done|].
      rewrite Hrun, (validate_each_step_failed _ _ _ _ message) by done.
      unfold s1. by rewrite after_lookups_snoc. }
    split; [exact Hv | by apply Hprop].
Qed.

(** *** Creation *)

(** C1. Whenever [create_order] ends with an exception, the 400 of a
    failed validation and the 503 of an unavailable catalog among them,
    the order store is the one the call started from. *)
Theorem create_order_failure_persists_nothing
    (request : CreateOrderRequest) (tenant_id : string) (s s' : State World)
    (e : exn) :
  create_order rt request tenant_id s = (Raise e, s') ->
  orders s' = orders s.
Proof.
  rewrite create_order_unfold.
  pose proof (validate_menu_items_orders tenant_id (req_items request) s) as Hkeep.
  destruct (validate_menu_items rt tenant_id (req_items request) s) as [[b|e1] s1];
    simpl in Hkeep.
  - destruct (line_totals (req_items request)); intros [= <- <-]; exact Hkeep.
  - intros [= <- <-]. exact Hkeep.
Qed.

(** C4. The total of a created order is the sum of the products
    price times quantity of the submitted lines, in line order, with the
    prices of the request, as the builtin [sum] of the interpreter adds
    floats ([sum_left_to_right] before CPython 3.12, [sum_compensated]
    from it on); the order carries those lines, and the total is the same
    whatever the tenant, the store and the world (and so whatever the
    catalog answers) the request is created in. *)
Theorem created_total_is_sum_of_submitted_lines
    (request : CreateOrderRequest) (tenant_id : string) (s s' : State World)
    (o : Order) :
  create_order rt request tenant_id s = (Return o, s') ->
  items o = req_items request
  /\ (exists xs : list float,
        Forall2 (fun item x => float_mul_int (price item) (quantity item) = Some x)
                (req_items request) xs
        /\ total o = (if compensated_sum rt then sum_compensated xs
                      else sum_left_to_right xs))
  /\ (forall (tenant2 : string) (s2 s2' : State World) (o2 : Order),
        create_order rt request tenant2 s2 = (Return o2, s2') ->
        total o2 = total o).
Proof.
  rewrite create_order_unfold.
  destruct (validate_menu_items rt tenant_id (req_items request) s) as [[b|e1] s1];
    [|done].
  destruct (line_totals (req_items request)) as [xs|] eqn:Hxs; [|done].
  intros [= <- <-]. simpl. split; [done|]. split.
  - exists xs. split; [by apply line_totals_Forall2 | done].
  - intros tenant2 s2 s2' o2. rewrite create_order_unfold.
    destruct (validate_menu_items rt tenant2 (req_items request) s2) as [[b2|e2] s3];
      [|done].
    rewrite Hxs. by intros [= <- <-].
Qed.

(** C5 (as amended). Storing the new order cannot fail: once validation
    has passed and the line totals have been computed, [create_order]
    returns the order it built, whether or not the store already holds an
    order under the generated id.  Afterwards the store holds the new order
    under that tenant and id, in the place of any order that was there, and
    every other order is as it was. *)
Theorem store_insert_never_fails
    (request : CreateOrderRequest) (tenant_id : string) (s s1 : State World)
    (xs : list float) :
  validate_menu_items rt tenant_id (req_items request) s = (Return true, s1) ->
  line_totals (req_items request) = Some xs ->
  exists (o : Order) (s' : State World),
    create_order rt request tenant_id s = (Return o, s')
    /\ id o = fst (uuid4 rt (world s1))
    /\ find_order (orders s') tenant_id (id o) = Some o
    /\ (forall t i : string,
          (t, i) <> (tenant_id, id o) ->
          find_order (orders s') t i = find_order (orders s) t i).
Proof.
  intros Hv Hxs.
  pose proof (validate_menu_items_orders tenant_id (req_items request) s) as Hkeep.
  rewrite Hv in Hkeep. simpl in Hkeep.
  eexists _, _. rewrite create_order_unfold, Hv, Hxs.
  split; [reflexivity|]. cbn -[find_order store_order].
  split; [reflexivity|]. split.
  - apply find_order_store_order_eq.
  - intros t i Hne. rewrite find_order_store_order_ne by exact Hne.
    by rewrite Hkeep.
Qed.

(** C6 (as amended). A request without lines is accepted: no lookup is
    sent, and the call returns and stores an order without lines, in status
    [PENDING], whose total is 0, the sum of no line totals. *)
Theorem empty_order_is_accepted
    (request : CreateOrderRequest) (tenant_id : string) (s : State World) :
  req_items request = [] ->
  exists (o : Order) (s' : State World),
    create_order rt request tenant_id s = (Return o, s')
    /\ issued s' = issued s
    /\ items o = []
    /\ total o = 0%float
    /\ status o = PENDING
    /\ find_order (orders s') tenant_id (id o) = Some o.
Proof.
  intros Hnil. eexists _, _.
  rewrite create_order_unfold, Hnil, validate_menu_items_nil.
  split; [reflexivity|]. cbn -[find_order store_order].
  split; [reflexivity|]. split; [reflexivity|].
  split; [by destruct (compensated_sum rt)|]. split; [reflexivity|].
  apply find_order_store_order_eq.
Qed.

(** *** Status updates *)

(** C7 (as amended). For a stored order and any new status, whatever the
    current one, [update_order_status] returns the order with that status
    and with [updated_at] set to the reading of the clock taken by the
    call, which is later than the previous [updated_at] when that reading
    is; every other field is as before, and the store holds the returned
    order under the same tenant and id. *)
Theorem update_order_status_effect
    (order_id : string) (new_status : OrderStatus) (tenant_id : string)
    (s : State World) (o : Order) :
  find_order (orders s) tenant_id order_id = Some o ->
  exists (o' : Order) (s' : State World),
    update_order_status rt order_id new_status tenant_id s = (Return o', s')
    /\ status o' = new_status
    /\ updated_at o' = fst (datetime_now rt (world s))
    /\ (updated_at o < fst (datetime_now rt (world s)) ->
        updated_at o < updated_at o')
    /\ (id o' = id o
        /\ OrderService.tenant_id o' = OrderService.tenant_id o
        /\ customer_name o' = customer_name o
        /\ table_number o' = table_number o
        /\ items o' = items o
        /\ total o' = total o
        /\ notes o' = notes o
        /\ created_at o' = created_at o)
    /\ find_order (orders s') tenant_id order_id = Some o'.
Proof.
  intros Hfind. unfold update_order_status. rewrite Hfind.
  unfold bind, call_datetime_now, set_orders, ret.
  destruct (datetime_now rt (world s)) as [now w1].
  eexists _, _. split; [reflexivity|]. cbn -[find_order store_order].
  repeat (split; [done|]).
  apply find_order_store_order_eq.
Qed.

(** C9. A status update for a tenant and id under which the store holds no
    order raises the 404 "Order <id> not found" and leaves the state, the
    order store included, as it was. *)
Theorem update_unknown_order_is_not_found
    (order_id : string) (new_status : OrderStatus) (tenant_id : string)
    (s : State World) :
  find_order (orders s) tenant_id order_id = None ->
  update_order_status rt order_id new_status tenant_id s =
  (Raise (HTTPException 404 ("Order " +:+ order_id +:+ " not found")), s).
Proof. intros Hfind. unfold update_order_status. by rewrite Hfind. Qed.

(** *** Reads *)

Lemma get_orders_returns (t : string) (s : State World) :
  exists l : list Order, get_orders t s = (Return l, s).
Proof. unfold get_orders. destruct (orders s !! t); eauto. Qed.

(** C10. Listing the orders of a tenant under which the store holds no
    order returns the empty list, and listing returns a list, never an
    exception, for every tenant; the state is not changed. *)
Theorem get_orders_of_unknown_tenant_is_empty
    (tenant_id : string) (s : State World) :
  (forall i : string, find_order (orders s) tenant_id i = None) ->
  get_orders tenant_id s = (Return [], s)
  /\ (forall t : string, exists l : list Order, get_orders t s = (Return l, s)).
Proof.
  intros Hnone. split.
  - unfold get_orders. unfold find_order in Hnone.
    destruct (orders s !! tenant_id) as [d|]; [|done].
    assert (d = ∅) as -> by (by apply map_empty).
    by rewrite map_to_list_empty.
  - intros t. apply get_orders_returns.
Qed.

Lemma In_get_orders (t : string) (s : State World) (l : list Order) (o : Order) :
  get_orders t s = (Return l, s) -> In o l ->
  exists i : string, find_order (orders s) t i = Some o.
Proof.
  unfold get_orders, find_order.
  destruct (orders s !! t) as [d|]; intros [= <-]; [|done].
  intros Hin. apply list_elem_of_In, list_elem_of_fmap in Hin as [[i o'] [-> Hin]].
  apply elem_of_map_to_list in Hin. by exists i.
Qed.

Lemma find_none_get_menu_item (menu_items : Catalog.menu_items_t)
    (item_id t : string) (entries : list Catalog.MenuItem) :
  menu_items !! t = Some entries ->
  (forall i, In i entries -> Catalog.id i <> item_id) ->
  Catalog.get_menu_item menu_items item_id t =
  Raise (HTTPException 404 ("Item " +:+ item_id +:+ " not found")).
Proof.
  intros Hm Hno. unfold Catalog.get_menu_item. rewrite Hm.
  destruct (find _ entries) as [i|] eqn:Hf; [|done].
  apply find_some in Hf as [Hin Heq]. apply String.eqb_eq in Heq.
  by destruct (Hno i Hin).
Qed.

Lemma find_some_get_menu_item (menu_items : Catalog.menu_items_t)
    (t : string) (entries : list Catalog.MenuItem) (item : Catalog.MenuItem) :
  menu_items !! t = Some entries -> In item entries ->
  exists i, Catalog.get_menu_item menu_items (Catalog.id item) t = Return i
            /\ Catalog.id i = Catalog.id item /\ In i entries.
Proof.
  intros Hm Hin. unfold Catalog.get_menu_item. rewrite Hm.
  destruct (find _ entries) as [i|] eqn:Hf.
  - apply find_some in Hf as [Hi Heq]. apply String.eqb_eq in Heq. eauto.
  - eapply find_none in Hf; [|exact Hin]. simpl in Hf.
    by rewrite String.eqb_refl in Hf.
Qed.

(** The handlers keep [store_ok], which holds of the empty store. *)
Lemma create_order_store_ok (request : CreateOrderRequest) (t : string)
    (s s' : State World) (r : result Order) :
  store_ok (orders s) ->
  create_order rt request t s = (r, s') ->
  store_ok (orders s').
Proof.
  intros Hok. rewrite create_order_unfold.
  pose proof (validate_menu_items_orders t (req_items request) s) as Hkeep.
  destruct (validate_menu_items rt t (req_items request) s) as [[b|e1] s1];
    simpl in Hkeep.
  - destruct (line_totals (req_items request)) as [xs|]; intros [= <- <-].
    + cbn -[store_order]. rewrite Hkeep. by apply store_ok_store_order.
    + by rewrite Hkeep.
  - intros [= <- <-]. by rewrite Hkeep.
Qed.

Lemma update_order_status_store_ok (order_id : string) (new_status : OrderStatus)
    (t : string) (s s' : State World) (r : result Order) :
  store_ok (orders s) ->
  update_order_status rt order_id new_status t s = (r, s') ->
  store_ok (orders s').
Proof.
  intros Hok. unfold update_order_status.
  destruct (find_order (orders s) t order_id) as [o|] eqn:Hfind.
  - unfold bind, call_datetime_now, set_orders, ret.
    destruct (datetime_now rt (world s)) as [now w1].
    intros [= <- <-]. cbn -[store_order].
    destruct (Hok _ _ _ Hfind) as [Ht Hi].
    by apply store_ok_store_order.
  - by intros [= <- <-].
Qed.

(** C8 (as amended). Let [A] and [B] be distinct tenants.  An order
    created under [A] is never what [get_order] returns under [B]: under
    the id of the new order [B] finds an order of its own, when it holds
    one under that id, and the 404 otherwise; what [B] finds under any id
    is what it found before the creation, and the list [get_orders]
    returns for [B] does not contain the new order.  An entry of the menu
    of [A] is returned by [get_menu_item] under [A]; the lookup of its id
    under [B] returns an entry of the menu of [B] itself, when that menu
    has one with the id, and ends in a 404 otherwise. *)
Theorem tenants_see_only_their_own
    (request : CreateOrderRequest) (A B : string) (s s' : State World) (o : Order)
    (menu_items : Catalog.menu_items_t) (entries : list Catalog.MenuItem)
    (item : Catalog.MenuItem) :
  A <> B ->
  store_ok (orders s) ->
  create_order rt request A s = (Return o, s') ->
  menu_items !! A = Some entries ->
  In item entries ->
  (forall i : string, fst (get_order i B s') = fst (get_order i B s))
  /\ (forall o' : Order,
        get_order (id o) B s' = (Return o', s') ->
        OrderService.tenant_id o' = B /\ o' <> o)
  /\ (find_order (orders s) B (id o) = None ->
      get_order (id o) B s' =
      (Raise (HTTPException 404 ("Order " +:+ id o +:+ " not found")), s'))
  /\ (exists l : list Order, get_orders B s' = (Return l, s') /\ ~ In o l)
  /\ (exists i, Catalog.get_menu_item menu_items (Catalog.id item) A = Return i
                /\ Catalog.id i = Catalog.id item)
  /\ (forall i : Catalog.MenuItem,
        Catalog.get_menu_item menu_items (Catalog.id item) B = Return i ->
        exists entriesB,
          menu_items !! B = Some entriesB /\ In i entriesB
          /\ Catalog.id i = Catalog.id item)
  /\ ((forall entriesB i, menu_items !! B = Some entriesB -> In i entriesB ->
                          Catalog.id i <> Catalog.id item) ->
      exists detail : string,
        Catalog.get_menu_item menu_items (Catalog.id item) B =
        Raise (HTTPException 404 detail)).
Proof.
  intros HAB Hok Hcreate HmA Hin.
  assert (OrderService.tenant_id o = A
          /\ forall i, find_order (orders s') B i = find_order (orders s) B i)
    as [HtA Hframe].
  { revert Hcreate. rewrite create_order_unfold.
    pose proof (validate_menu_items_orders A (req_items request) s) as Hkeep.
    destruct (validate_menu_items rt A (req_items request) s) as [[b|e1] s1];
      [|done].
    destruct (line_totals (req_items request)) as [xs|]; [|done].
    simpl in Hkeep. intros [= <- <-]. cbn -[find_order store_order].
    split; [done|].
    intros i. rewrite find_order_store_order_ne by congruence.
    by rewrite Hkeep. }
  split; [|split; [|split; [|split; [|split; [|split]]]]].
  - intros i. unfold get_order. rewrite Hframe.
    by destruct (find_order (orders s) B i).
  - intros o'. unfold get_order. rewrite Hframe.
    destruct (find_order (orders s) B (id o)) as [o1|] eqn:Hfind; [|done].
    intros [= <-]. apply Hok in Hfind as [Ht _]. split; [exact Ht|].
    congruence.
  - intros Hfresh. unfold get_order. by rewrite Hframe, Hfresh.
  - destruct (get_orders_returns B s') as [l Hl]. exists l. split; [exact Hl|].
    intros Hol. destruct (In_get_orders _ _ _ _ Hl Hol) as [i Hi].
    rewrite Hframe in Hi. apply Hok in Hi as [Ht _]. congruence.
  - destruct (find_some_get_menu_item _ _ _ _ HmA Hin) as (i & Hi & Hid & _).
    eauto.
  - intros i. unfold Catalog.get_menu_item.
    destruct (menu_items !! B) as [entriesB|]; [|done].
    destruct (find _ entriesB) as [i'|] eqn:Hf; [|done].
    intros [= <-]. apply find_some in Hf as [Hi Heq].
    apply String.eqb_eq in Heq. eauto.
  - intros HmB. destruct (menu_items !! B) as [entriesB|] eqn:HB.
    + eexists. apply (find_none_get_menu_item _ _ _ entriesB HB).
      intros i Hi. by apply (HmB entriesB).
    + eexists. unfold Catalog.get_menu_item. by rewrite HB.
Qed.

End Properties.

(** ** The properties on the deployment *)

Section OnTheDeployment.
Import OrderService Deployment.

(** C1 at work: the second line of the request is not on the menu, the
    call ends in the 400 and the store stays empty. *)
Lemma create_order_failure_persists_nothing_witness :
  let r := create_order sim burger_ghost_pizza demo (start [] ["u1"%string] [100]) in
  r = (Raise (HTTPException 400 "Item ghost-999 not found in menu"), snd r)
  /\ orders (snd r) = orders (start [] ["u1"%string] [100]).
Proof.
  intros r. split; [vm_compute; reflexivity|].
  apply (create_order_failure_persists_nothing sim burger_ghost_pizza demo
           (start [] ["u1"%string] [100]) (snd r)
           (HTTPException 400 "Item ghost-999 not found in menu")).
  vm_compute. reflexivity.
Defined.

(** C2 at work: burger found, ghost not found, pizza never looked up. *)
Lemma validation_is_sequential_and_short_circuits_witness :
  let s0 := start [] [] [] in
  req_items burger_ghost_pizza <> []
  /\ validate_menu_items sim demo (req_items burger_ghost_pizza) s0 =
     (Raise (HTTPException 400 "Item ghost-999 not found in menu"),
      after_lookups sim s0 demo ["burger-001"; "ghost-999"]%string)
  /\ issued (after_lookups sim s0 demo ["burger-001"; "ghost-999"]%string) =
     [(demo, "burger-001"); (demo, "ghost-999")]%string.
Proof.
  intros s0.
  assert (req_items burger_ghost_pizza <> []) as Hne by discriminate.
  split; [exact Hne|]. split; [|reflexivity].
  destruct (validation_is_sequential_and_short_circuits sim demo
              (req_items burger_ghost_pizza) s0 Hne) as [_ Hstop].
  destruct (Hstop [mkOrderItem "burger-001" 2 12.99%float]
              (mkOrderItem "ghost-999" 1 3%float)
              [mkOrderItem "pizza-001" 1 14.99%float]
              [Responded (mkResponse 200 (Some (Catalog.item_json burger)))]
              (Responded (Catalog.serve_menu_item demo_menu "ghost-999" demo)))
    as [Hnot_found _].
  - reflexivity.
  - vm_compute. reflexivity.
  - constructor; [|constructor]. exists burger. split; reflexivity.
  - apply Hnot_found. eexists. vm_compute. reflexivity.
Defined.

(** C3 at work: the only lookup times out. *)
Lemma transport_failures_surface_as_unavailable_witness :
  let s0 := start [Some TimedOut] ["u1"%string] [100] in
  let e := HTTPException 503 "Catalog service unavailable (timeout)" in
  req_items two_burgers = [] ++ mkOrderItem "burger-001" 2 12.99%float :: []
  /\ answers sim (world s0) demo
       (item_id <$> ([] ++ [mkOrderItem "burger-001" 2 12.99%float])) = [] ++ [TimedOut]
  /\ Forall found_available []
  /\ validate_menu_items sim demo (req_items two_burgers) s0 =
     (Raise e, after_lookups sim s0 demo ["burger-001"%string])
  /\ create_order sim two_burgers demo s0 =
     (Raise e, after_lookups sim s0 demo ["burger-001"%string]).
Proof.
  intros s0 e.
  assert (req_items two_burgers = [] ++ mkOrderItem "burger-001" 2 12.99%float :: [])
    as H1 by reflexivity.
  assert (answers sim (world s0) demo
            (item_id <$> ([] ++ [mkOrderItem "burger-001" 2 12.99%float]))
          = [] ++ [TimedOut]) as H2 by (vm_compute; reflexivity).
  assert (Forall found_available []) as H3 by constructor.
  split; [exact H1|]. split; [exact H2|]. split; [exact H3|].
  destruct (transport_failures_surface_as_unavailable sim two_burgers demo
              [] (mkOrderItem "burger-001" 2 12.99%float) [] [] TimedOut s0
              H1 H2 H3) as [Htimeout _].
  exact (Htimeout eq_refl).
Defined.

(** C4 at work: three lines at request prices 0.1, 0.1 (twice) and 0.3,
    none of them the price of the menu, make 0.6000000000000001 on the
    interpreter with the plain [sum] and 0.6 on the one with the
    compensated [sum]. *)
Lemma created_total_is_sum_of_submitted_lines_witness :
  let s0 := start [] ["u1"%string] [100] in
  let o :=
    mkOrder "u1" demo "Ada" None (req_items three_lines)
      0.6000000000000001%float PENDING None 100 100 in
  let o312 :=
    mkOrder "u1" demo "Ada" None (req_items three_lines)
      0.6%float PENDING None 100 100 in
  let s' := snd (create_order sim three_lines demo s0) in
  let s312' := snd (create_order sim312 three_lines demo s0) in
  create_order sim three_lines demo s0 = (Return o, s')
  /\ create_order sim312 three_lines demo s0 = (Return o312, s312')
  /\ (items o = req_items three_lines
      /\ (exists xs : list float,
            Forall2 (fun item x => float_mul_int (price item) (quantity item) = Some x)
                    (req_items three_lines) xs
            /\ total o = sum_left_to_right xs)
      /\ (forall (tenant2 : string) (s2 s2' : State Sim) (o2 : Order),
            create_order sim three_lines tenant2 s2 = (Return o2, s2') ->
            total o2 = total o))
  /\ (exists xs : list float,
        Forall2 (fun item x => float_mul_int (price item) (quantity item) = Some x)
                (req_items three_lines) xs
        /\ total o312 = sum_compensated xs).
Proof.
  intros s0 o o312 s' s312'.
  assert (create_order sim three_lines demo s0 = (Return o, s')) as Hrun
    by (vm_compute; reflexivity).
  assert (create_order sim312 three_lines demo s0 = (Return o312, s312')) as Hrun312
    by (vm_compute; reflexivity).
  split; [exact Hrun|]. split; [exact Hrun312|]. split.
  - exact (created_total_is_sum_of_submitted_lines sim three_lines demo s0 _ _ Hrun).
  - destruct (created_total_is_sum_of_submitted_lines sim312 three_lines demo s0 _ _
                Hrun312) as (_ & Hsum & _).
    exact Hsum.
Defined.

(** C5 as the claim has it fails: the generator returns "u1" a second
    time, the store already holds an order under that id, and the second
    creation returns normally with its order in the place of the first. *)
Lemma duplicate_id_insert_replaces_silently :
  let s := after_first_order [] ["u1"; "u1"]%string [100; 200] in
  find_order (orders s) demo "u1" = Some first_order
  /\ exists (o : Order) (s' : State Sim),
       create_order sim one_pizza demo s = (Return o, s')
       /\ id o = id first_order
       /\ find_order (orders s') demo "u1" = Some o
       /\ o <> first_order.
Proof.
  intros s. split; [vm_compute; reflexivity|].
  eexists _, _. split; [vm_compute; reflexivity|].
  split; [reflexivity|]. split; [vm_compute; reflexivity|].
  discriminate.
Defined.

(** C5 as amended, at work on the same run. *)
Lemma store_insert_never_fails_witness :
  let s := after_first_order [] ["u1"; "u1"]%string [100; 200] in
  let s1 := after_lookups sim s demo ["pizza-001"%string] in
  validate_menu_items sim demo (req_items one_pizza) s = (Return true, s1)
  /\ line_totals (req_items one_pizza) = Some [14.99%float]
  /\ exists (o : Order) (s' : State Sim),
       create_order sim one_pizza demo s = (Return o, s')
       /\ id o = fst (uuid4 sim (world s1))
       /\ find_order (orders s') demo (id o) = Some o
       /\ (forall t i : string,
             (t, i) <> (demo, id o) ->
             find_order (orders s') t i = find_order (orders s) t i).
Proof.
  intros s s1.
  assert (validate_menu_items sim demo (req_items one_pizza) s = (Return true, s1))
    as Hv by (vm_compute; reflexivity).
  assert (line_totals (req_items one_pizza) = Some [14.99%float])
    as Hxs by (vm_compute; reflexivity).
  split; [exact Hv|]. split; [exact Hxs|].
  exact (store_insert_never_fails sim one_pizza demo s s1 _ Hv Hxs).
Defined.

(** C6 as the claim has it fails: the request without lines is not
    rejected; its order is created and listed. *)
Lemma empty_order_is_created :
  let s := start [] ["u1"%string] [100] in
  req_items no_lines = []
  /\ exists (o : Order) (s' : State Sim),
       create_order sim no_lines demo s = (Return o, s')
       /\ find_order (orders s') demo (id o) = Some o
       /\ get_orders demo s' = (Return [o], s').
Proof.
  intros s. split; [reflexivity|].
  eexists _, _. split; [vm_compute; reflexivity|].
  split; vm_compute; reflexivity.
Defined.

(** C6 as amended, at work. *)
Lemma empty_order_is_accepted_witness :
  let s := start [] ["u1"%string] [100] in
  req_items no_lines = []
  /\ exists (o : Order) (s' : State Sim),
       create_order sim no_lines demo s = (Return o, s')
       /\ issued s' = issued s
       /\ items o = []
       /\ total o = 0%float
       /\ status o = PENDING
       /\ find_order (orders s') demo (id o) = Some o.
Proof.
  intros s.
  assert (req_items no_lines = []) as Hnil by reflexivity.
  split; [exact Hnil|].
  exact (empty_order_is_accepted sim no_lines demo s Hnil).
Defined.

(** C7 as the claim has it fails: the order is created at 01:59:00 local
    time, the clocks are set back an hour, and the update ten minutes later
    reads 01:09:00; [updated_at] is not greater than it was. *)
Lemma updated_at_can_fail_to_advance :
  let s := after_first_order [] ["u1"%string] [7140000000; 4140000000] in
  exists (o o' : Order) (s' : State Sim),
    find_order (orders s) demo "u1" = Some o
    /\ update_order_status sim "u1" CONFIRMED demo s = (Return o', s')
    /\ status o' = CONFIRMED
    /\ ~ (updated_at o < updated_at o').
Proof.
  intros s. eexists _, _, _.
  split; [vm_compute; reflexivity|].
  split; [vm_compute; reflexivity|].
  split; [reflexivity|].
  vm_compute. discriminate.
Defined.

(** C7 as amended, at work: confirmed at time 250. *)
Lemma update_order_status_effect_witness :
  let s := after_first_order [] ["u1"%string] [100; 250] in
  find_order (orders s) demo "u1" = Some first_order
  /\ exists (o' : Order) (s' : State Sim),
       update_order_status sim "u1" CONFIRMED demo s = (Return o', s')
       /\ status o' = CONFIRMED
       /\ updated_at o' = fst (datetime_now sim (world s))
       /\ (updated_at first_order < fst (datetime_now sim (world s)) ->
           updated_at first_order < updated_at o')
       /\ (id o' = id first_order
           /\ OrderService.tenant_id o' = OrderService.tenant_id first_order
           /\ customer_name o' = customer_name first_order
           /\ table_number o' = table_number first_order
           /\ items o' = items first_order
           /\ total o' = total first_order
           /\ notes o' = notes first_order
           /\ created_at o' = created_at first_order)
       /\ find_order (orders s') demo "u1" = Some o'.
Proof.
  intros s.
  assert (find_order (orders s) demo "u1" = Some first_order) as Hfind
    by (vm_compute; reflexivity).
  split; [exact Hfind|].
  exact (update_order_status_effect sim "u1" CONFIRMED demo s first_order Hfind).
Defined.

(** C9 at work: nothing is stored yet. *)
Lemma update_unknown_order_is_not_found_witness :
  let s := start [] ["u1"%string] [100] in
  find_order (orders s) demo "u1" = None
  /\ update_order_status sim "u1" READY demo s =
     (Raise (HTTPException 404 "Order u1 not found"), s).
Proof.
  intros s.
  assert (find_order (orders s) demo "u1" = None) as Hfind by reflexivity.
  split; [exact Hfind|].
  exact (update_unknown_order_is_not_found sim "u1" READY demo s Hfind).
Defined.

(** C10 at work: an order is stored for "forkflow-demo", none for
    "riverside". *)
Lemma get_orders_of_unknown_tenant_is_empty_witness :
  let s := after_first_order [] ["u1"%string] [100] in
  (forall i : string, find_order (orders s) "riverside" i = None)
  /\ get_orders "riverside" s = (Return [], s)
  /\ (forall t : string, exists l : list Order, get_orders t s = (Return l, s)).
Proof.
  intros s.
  assert (forall i : string, find_order (orders s) "riverside" i = None) as Hnone.
  { intros i. unfold find_order.
    replace (orders s !! "riverside"%string) with (@None (gmap string Order));
      [reflexivity | vm_compute; reflexivity]. }
  split; [exact Hnone|].
  exact (get_orders_of_unknown_tenant_is_empty "riverside" s Hnone).
Defined.

(** C8 as the claim has it fails where the ids coincide: the burger of
    "forkflow-demo" is looked up under "riverside", whose menu has an
    entry of the same id, and that entry is found; the order created under
    "forkflow-demo" gets the id of an order of "riverside", and
    [get_order] under "riverside" returns that one. *)
Lemma coinciding_ids_are_found_under_the_other_tenant :
  let s := after_riverside_order ["u1"; "u1"]%string [50; 100] in
  let s' := snd (create_order sim two_burgers demo s) in
  demo <> "riverside"%string
  /\ demo_menu !! demo = Some Catalog.sample_menu
  /\ In burger Catalog.sample_menu
  /\ Catalog.get_menu_item demo_menu (Catalog.id burger) "riverside" =
     Return veggie_burger
  /\ create_order sim two_burgers demo s = (Return first_order, s')
  /\ get_order (id first_order) "riverside" s' = (Return riverside_order, s').
Proof.
  intros s s'. split; [discriminate|].
  split; [vm_compute; reflexivity|]. split; [left; reflexivity|].
  split; [vm_compute; reflexivity|].
  split; vm_compute; reflexivity.
Defined.

(** C8 as amended, at work on the same run, where both ids coincide. *)
Lemma tenants_see_only_their_own_witness :
  let s := after_riverside_order ["u1"; "u1"]%string [50; 100] in
  let s' := snd (create_order sim two_burgers demo s) in
  demo <> "riverside"%string
  /\ store_ok (orders s)
  /\ create_order sim two_burgers demo s = (Return first_order, s')
  /\ demo_menu !! demo = Some Catalog.sample_menu
  /\ In burger Catalog.sample_menu
  /\ (forall i : string,
        fst (get_order i "riverside" s') = fst (get_order i "riverside" s))
  /\ (forall o' : Order,
        get_order (id first_order) "riverside" s' = (Return o', s') ->
        OrderService.tenant_id o' = "riverside"%string /\ o' <> first_order)
  /\ (exists l : list Order,
        get_orders "riverside" s' = (Return l, s') /\ ~ In first_order l)
  /\ (exists i, Catalog.get_menu_item demo_menu (Catalog.id burger) demo = Return i
                /\ Catalog.id i = Catalog.id burger)
  /\ (forall i : Catalog.MenuItem,
        Catalog.get_menu_item demo_menu (Catalog.id burger) "riverside" = Return i ->
        exists entriesB,
          demo_menu !! "riverside"%string = Some entriesB /\ In i entriesB
          /\ Catalog.id i = Catalog.id burger).
Proof.
  intros s s'.
  assert (demo <> "riverside"%string) as Hdistinct by discriminate.
  assert (store_ok (orders s)) as Hok.
  { apply (create_order_store_ok sim no_lines "riverside"
             (start [] ["u1"; "u1"]%string [50; 100]) s
             (fst (create_order sim no_lines "riverside"
                     (start [] ["u1"; "u1"]%string [50; 100])))).
    - apply store_ok_empty.
    - unfold s, after_riverside_order.
      by destruct (create_order sim no_lines "riverside"
                     (start [] ["u1"; "u1"]%string [50; 100])). }
  assert (create_order sim two_burgers demo s = (Return first_order, s')) as Hrun
    by (vm_compute; reflexivity).
  assert (demo_menu !! demo = Some Catalog.sample_menu) as Hmenu
    by (vm_compute; reflexivity).
  assert (In burger Catalog.sample_menu) as Hin by (left; reflexivity).
  do 5 (split; [assumption|]).
  destruct (tenants_see_only_their_own sim two_burgers demo "riverside" s s'
              first_order demo_menu Catalog.sample_menu burger
              Hdistinct Hok Hrun Hmenu Hin)
    as (Hsame & Hown & _ & Hlist & HA & HB & _).
  split; [exact Hsame|]. split; [exact Hown|]. split; [exact Hlist|].
  split; [exact HA | exact HB].
Defined.

End OnTheDeployment.

(** ** Further properties of the two services *)

Section MoreProperties.
Import OrderService.

Context {World : Type} (rt : Runtime World).

(** *** The validation loop under arbitrary answers *)

Lemma answers_cons (w : World) (t i : string) (ids : list string) :
  answers rt w t (i :: ids) =
  fst (catalog_get rt w t i) :: answers rt (snd (catalog_get rt w t i)) t ids.
Proof.
  unfold answers. simpl. destruct (catalog_get rt w t i) as [r w1]. simpl.
  by destruct (lookups rt w1 t ids).
Qed.



Lemma world_after_one_lookup (s : State World) (t i : string) :
  world (after_lookups rt s t [i]) = snd (catalog_get rt (world s) t i).
Proof. by rewrite after_lookups_cons, after_lookups_nil. Qed.

(** One turn of the loop, written out. *)
Lemma validate_each_cons (t : string) (item : OrderItem) (rest : list OrderItem)
    (s : State World) :
  validate_each rt t (item :: rest) s =
  let s1 := after_lookups rt s t [item_id item] in
  match fst (catalog_get rt (world s) t (item_id item)) with
  | TimedOut => (Raise TimeoutException, s1)
  | Failed message => (Raise (RequestError message), s1)
  | Escaped name => (Raise (EscapedFromGet name), s1)
  | Responded response =>
      if status_code response =? 404 then
        (Raise (HTTPException 400 ("Item " +:+ item_id item +:+ " not found in menu")),
         s1)
      else if (200 <=? status_code response) && (status_code response <=? 299) then
        match body response with
        | None => (Raise JSONDecodeError, s1)
        | Some (JObject fields) =>
            if truthy (default JNull (fields_get "available" fields)) then
              validate_each rt t rest s1
            else
              (Raise (HTTPException 400
                        ("Item " +:+ item_id item +:+ " is not available")), s1)
        | Some _ => (Raise AttributeError, s1)
        end
      else (Raise (HTTPStatusError (status_code response)), s1)
  end.
Proof.
  rewrite after_lookups_cons, after_lookups_nil.
  simpl. unfold bind at 1. unfold client_get.
  destruct (catalog_get rt (world s) t (item_id item)) as [r w1]. simpl.
  destruct r as [response| |message|name]; [|done|done|done].
  destruct (status_code response =? 404); [done|].
  unfold bind at 1. unfold raise_for_status.
  destruct ((200 <=? status_code response) && (status_code response <=? 299)); [|done].
  unfold ret at 1. unfold bind at 1. unfold response_json.
  destruct (body response) as [document|]; [|done].
  unfold ret at 1. unfold bind at 1. unfold json_get.
  destruct document; try done.
  unfold ret at 1.
  by destruct (truthy (default JNull (fields_get "available" fields))).
Qed.

(** One turn of the loop: it goes on after an accepted answer and stops
    with an exception after any other. *)
Lemma validate_each_step_cases (t : string) (item : OrderItem)
    (rest : list OrderItem) (s : State World) :
  (accepted (fst (catalog_get rt (world s) t (item_id item)))
   /\ validate_each rt t (item :: rest) s =
      validate_each rt t rest (after_lookups rt s t [item_id item]))
  \/
  (exists e : exn,
     validate_each rt t (item :: rest) s =
     (Raise e, after_lookups rt s t [item_id item])
     /\ loop_exn e).
Proof.
  rewrite validate_each_cons. cbv zeta. unfold loop_exn, accepted.
  destruct (fst (catalog_get rt (world s) t (item_id item)))
    as [[code document]| |message|name]; simpl.
  - destruct (code =? 404) eqn:H404.
    { right. eexists. split; [reflexivity|]. eauto 10. }
    destruct ((200 <=? code) && (code <=? 299)) eqn:H2xx.
    2:{ right. eexists. split; [reflexivity|].
        do 3 right. left. exists code. split; [done|].
        intros [H1 H2]. apply Z.leb_le in H1, H2. by rewrite H1, H2 in H2xx. }
    apply andb_true_iff in H2xx as [H1 H2]. apply Z.leb_le in H1, H2.
    destruct document as [document|].
    2:{ right. eexists. split; [reflexivity|]. tauto. }
    destruct document;
      try (right; eexists; split; [reflexivity|]; tauto).
    destruct (truthy (default JNull (fields_get "available" fields))) eqn:Hav.
    + left. split; [|reflexivity]. exists code, fields. auto.
    + right. eexists. split; [reflexivity|]. eauto 10.
  - right. eexists. split; [reflexivity|]. tauto.
  - right. eexists. split; [reflexivity|]. eauto.
  - right. eexists. split; [reflexivity|]. eauto 10.
Qed.

(** The loop sends the lookups of a prefix of the lines, in line order; it
    sends them all when it ends normally, after answers that were all
    accepted; and it stops only with the exceptions of [loop_exn]. *)
Lemma validate_each_run (t : string) (items : list OrderItem) (s s1 : State World)
    (r : result unit) :
  validate_each rt t items s = (r, s1) ->
  exists n : nat,
    (n <= length items)%nat
    /\ s1 = after_lookups rt s t (take n (item_id <$> items))
    /\ match r with
       | Return _ =>
           n = length items
           /\ Forall accepted (answers rt (world s) t (item_id <$> items))
       | Raise e => loop_exn e
       end.
Proof.
  revert s. induction items as [|item rest IH]; intros s Hrun.
  - simpl in Hrun. injection Hrun as <- <-. exists 0%nat.
    rewrite after_lookups_nil. repeat split; [done|constructor].
  - destruct (validate_each_step_cases t item rest s) as [[Hacc Hgo]|(e & Hstop & He)].
    + rewrite Hgo in Hrun. apply IH in Hrun as (n & Hn & -> & Hr).
      exists (S n). split; [simpl; lia|]. split.
      * change (take (S n) (item_id <$> item :: rest))
          with ([item_id item] ++ take n (item_id <$> rest)).
        by rewrite after_lookups_app.
      * destruct r as [u|e]; [|exact Hr]. destruct Hr as [-> Hall].
        split; [done|]. change (item_id <$> item :: rest)
          with (item_id item :: (item_id <$> rest)).
        rewrite answers_cons. constructor; [exact Hacc|].
        by rewrite <- world_after_one_lookup.
    + rewrite Hstop in Hrun. injection Hrun as <- <-.
      exists 1%nat. split; [simpl; lia|]. split; [|exact He].
      simpl. by rewrite take_0.
Qed.

Lemma validate_menu_items_run (t : string) (items : list OrderItem)
    (s s1 : State World) (r : result bool) :
  validate_menu_items rt t items s = (r, s1) ->
  exists (r0 : result unit),
    validate_each rt t items s = (r0, s1)
    /\ match r0 with
       | Return _ => r = Return true
       | Raise TimeoutException =>
           r = Raise (HTTPException 503 "Catalog service unavailable (timeout)")
       | Raise (RequestError message) =>
           r = Raise (HTTPException 503 ("Catalog service unavailable: " +:+ message))
       | Raise e => r = Raise e
       end.
Proof.
  unfold validate_menu_items, try_except, bind.
  destruct (validate_each rt t items s) as [[u|e] s0].
  - intros [= <- <-]. by exists (Return u).
  - destruct e; intros [= <- <-]; by eexists (Raise _).
Qed.

(** X1. Whatever the catalog and the network answer, [create_order] sends
    lookups only for its own tenant and its own lines: the lookups it adds
    are those of the first [n] lines, in line order, one each; and when it
    returns an order, [n] is the number of lines. *)
Theorem create_order_lookups_follow_the_lines
    (request : CreateOrderRequest) (tenant_id : string) (s s' : State World)
    (r : result Order) :
  create_order rt request tenant_id s = (r, s') ->
  exists n : nat,
    (n <= length (req_items request))%nat
    /\ issued s' =
       issued s ++ (pair tenant_id <$> take n (item_id <$> req_items request))
    /\ (forall o : Order, r = Return o -> n = length (req_items request)).
Proof.
  rewrite create_order_unfold.
  destruct (validate_menu_items rt tenant_id (req_items request) s) as [r1 s1] eqn:Hv.
  apply validate_menu_items_run in Hv as (r0 & Hloop & Hr).
  apply validate_each_run in Hloop as (n & Hn & -> & Hr0).
  intros Hc. exists n. split; [exact Hn|]. revert Hc.
  destruct r0 as [u|e].
  - destruct Hr0 as [-> _]. subst r1.
    destruct (line_totals (req_items request)); intros [= <- <-]; by split.
  - assert (exists e1, r1 = Raise e1) as [e1 ->] by (destruct e; eauto).
    intros [= <- <-]. split; [done|]. discriminate.
Qed.

Lemma validate_menu_items_passed (t : string) (items : list OrderItem)
    (s s1 : State World) (b : bool) :
  validate_menu_items rt t items s = (Return b, s1) ->
  s1 = after_lookups rt s t (item_id <$> items).
Proof.
  intros Hv. apply validate_menu_items_run in Hv as (r0 & Hloop & Hr).
  apply validate_each_run in Hloop as (n & Hn & -> & Hr0).
  destruct r0 as [u|e]; [|destruct e; discriminate Hr].
  destruct Hr0 as [-> _]. by rewrite <- (length_fmap item_id), firstn_all.
Qed.

(** X2. Validation passes only after every line has been looked up and
    every lookup has been answered with a status from 200 to 299 and a
    JSON object with a true [available]: a timeout, a transport failure, a
    404, another status or another body never lets an order through. *)
Theorem validation_passes_only_on_accepted_answers
    (tenant_id : string) (items : list OrderItem) (s s1 : State World) (b : bool) :
  validate_menu_items rt tenant_id items s = (Return b, s1) ->
  b = true
  /\ s1 = after_lookups rt s tenant_id (item_id <$> items)
  /\ Forall accepted (answers rt (world s) tenant_id (item_id <$> items)).
Proof.
  intros Hv. apply validate_menu_items_run in Hv as (r0 & Hloop & Hr).
  apply validate_each_run in Hloop as (n & Hn & -> & Hr0).
  destruct r0 as [u|e].
  - destruct Hr0 as [-> Hall]. injection Hr as ->.
    split; [done|]. split; [|exact Hall].
    by rewrite <- (length_fmap item_id), firstn_all.
  - destruct e; discriminate Hr.
Qed.

(** X3. The exceptions [create_order] can end with: the 400 of a
    rejection, the 503 of an unavailable catalog, the [HTTPStatusError] of
    a status outside 200..299, the error of a body that is not JSON or not
    an object, an overflowing line total, or an exception that
    [client.get] raised and that is not an [httpx.RequestError] (an
    [httpx.InvalidURL], say), which escapes as it is.  An httpx timeout or
    transport error never escapes as such, and no 404 is raised. *)
Theorem create_order_exceptions
    (request : CreateOrderRequest) (tenant_id : string) (s s' : State World)
    (e : exn) :
  create_order rt request tenant_id s = (Raise e, s') ->
  (exists detail, e = HTTPException 400 detail)
  \/ (exists detail, e = HTTPException 503 detail)
  \/ (exists code, e = HTTPStatusError code /\ ~ (200 <= code <= 299))
  \/ e = JSONDecodeError
  \/ e = AttributeError
  \/ e = OverflowError
  \/ (exists name, e = EscapedFromGet name).
Proof.
  rewrite create_order_unfold.
  destruct (validate_menu_items rt tenant_id (req_items request) s) as [r1 s1] eqn:Hv.
  apply validate_menu_items_run in Hv as (r0 & Hloop & Hr).
  apply validate_each_run in Hloop as (n & _ & _ & Hr0).
  destruct r0 as [u|e0].
  - subst r1. destruct (line_totals (req_items request)); intros [= <- <-].
    tauto.
  - destruct Hr0 as [->|[[m ->]|[[d ->]|[[c [-> Hc]]|[->|[->|[name ->]]]]]]];
      subst r1; intros [= <- <-]; eauto 12.
Qed.

(** X4. A status from 400 to 599 other than 404, met after lines that were
    all found and available, is not turned into a rejection or into an
    unavailable catalog: validation and [create_order] end with the
    [HTTPStatusError] of that status, and nothing is stored. *)
Theorem error_status_escapes_as_HTTPStatusError
    (request : CreateOrderRequest) (tenant_id : string)
    (pre : list OrderItem) (item : OrderItem) (post : list OrderItem)
    (rs : list reply) (response : Response) (s : State World) :
  req_items request = pre ++ item :: post ->
  answers rt (world s) tenant_id (item_id <$> (pre ++ [item])) =
    rs ++ [Responded response] ->
  Forall found_available rs ->
  400 <= status_code response <= 599 ->
  status_code response <> 404 ->
  let s1 := after_lookups rt s tenant_id (item_id <$> (pre ++ [item])) in
  validate_menu_items rt tenant_id (req_items request) s =
    (Raise (HTTPStatusError (status_code response)), s1)
  /\ create_order rt request tenant_id s =
     (Raise (HTTPStatusError (status_code response)), s1)
  /\ orders s1 = orders s.
Proof.
  intros Hitems Hans Hrs Hrange H404 s1.
  destruct (validate_each_reaches rt _ _ _ post _ _ _ Hans Hrs) as [Hrun Hr].
  assert (validate_menu_items rt tenant_id (req_items request) s =
          (Raise (HTTPStatusError (status_code response)), s1)) as Hv.
  { rewrite Hitems.
    rewrite (validate_menu_items_of_loop rt _ _ _ s1
               (Raise (HTTPStatusError (status_code response)))); [done|].
    rewrite Hrun, validate_each_cons, Hr. cbv zeta.
    rewrite after_lookups_snoc. fold s1.
    destruct (status_code response =? 404) eqn:E; [apply Z.eqb_eq in E; done|].
    destruct ((200 <=? status_code response) && (status_code response <=? 299)) eqn:E2;
      [|done].
    apply andb_true_iff in E2 as [_ E2]. apply Z.leb_le in E2. lia. }
  split; [exact Hv|]. split; [by rewrite create_order_unfold, Hv|done].
Qed.

(** X5. An answer with a status from 200 to 299, other than the entry the
    catalog sends, met after lines that were all found and available: a
    body that is not JSON ends validation with [JSONDecodeError], a JSON
    body that is not an object with [AttributeError], and a JSON object
    without an [available] field is rejected with the 400
    "Item <id> is not available". *)
Theorem unexpected_bodies
    (tenant_id : string) (pre : list OrderItem) (item : OrderItem)
    (post : list OrderItem) (rs : list reply) (code : Z) (content : option json)
    (s : State World) :
  answers rt (world s) tenant_id (item_id <$> (pre ++ [item])) =
    rs ++ [Responded (mkResponse code content)] ->
  Forall found_available rs ->
  200 <= code <= 299 ->
  let s1 := after_lookups rt s tenant_id (item_id <$> (pre ++ [item])) in
  let run := validate_menu_items rt tenant_id (pre ++ item :: post) s in
  (content = None -> run = (Raise JSONDecodeError, s1))
  /\ (forall document, content = Some document ->
        (forall fields, document <> JObject fields) ->
        run = (Raise AttributeError, s1))
  /\ (forall fields, content = Some (JObject fields) ->
        fields_get "available" fields = None ->
        run = (Raise (HTTPException 400
                        ("Item " +:+ item_id item +:+ " is not available")), s1)).
Proof.
  intros Hans Hrs Hcode s1 run.
  destruct (validate_each_reaches rt _ _ _ post _ _ _ Hans Hrs) as [Hrun Hr].
  assert (forall e, e <> TimeoutException -> (forall m, e <> RequestError m) ->
            validate_each rt tenant_id (item :: post)
              (after_lookups rt s tenant_id (item_id <$> pre)) = (Raise e, s1) ->
            run = (Raise e, s1)) as Hlift.
  { intros e He1 He2 Hstep. unfold run.
    rewrite (validate_menu_items_of_loop rt _ _ _ s1 (Raise e)).
    - destruct e; try done. by destruct (He2 message).
    - by rewrite Hrun. }
  assert ((code =? 404) = false) as E404 by (apply Z.eqb_neq; lia).
  assert ((200 <=? code) && (code <=? 299) = true) as E2xx.
  { apply andb_true_iff. split; apply Z.leb_le; lia. }
  repeat split.
  - intros ->. apply Hlift; [done|done|].
    rewrite validate_each_cons, Hr. cbv zeta. rewrite after_lookups_snoc. simpl.
    by rewrite E404, E2xx.
  - intros document -> Hnot. apply Hlift; [done|done|].
    rewrite validate_each_cons, Hr. cbv zeta. rewrite after_lookups_snoc. simpl.
    rewrite E404, E2xx. destruct document; try done. by destruct (Hnot fields).
  - intros fields -> Hmissing. apply Hlift; [done|done|].
    rewrite validate_each_cons, Hr. cbv zeta. rewrite after_lookups_snoc. simpl.
    by rewrite E404, E2xx, Hmissing.
Qed.

(** X6. When validation has passed and a line total cannot be computed,
    because the quantity is too large an [int] to multiply a [float] by,
    [create_order] ends with [OverflowError] after the lookups have been
    sent, and stores nothing. *)
Theorem overflowing_total_stores_nothing
    (request : CreateOrderRequest) (tenant_id : string) (s s1 : State World) :
  validate_menu_items rt tenant_id (req_items request) s = (Return true, s1) ->
  line_totals (req_items request) = None ->
  create_order rt request tenant_id s = (Raise OverflowError, s1)
  /\ orders s1 = orders s
  /\ issued s1 = issued s ++ (pair tenant_id <$> (item_id <$> req_items request)).
Proof.
  intros Hv Hnone. rewrite create_order_unfold, Hv, Hnone.
  split; [done|].
  pose proof (validate_menu_items_orders rt tenant_id (req_items request) s) as Hkeep.
  rewrite Hv in Hkeep. split; [exact Hkeep|].
  by rewrite (validate_menu_items_passed _ _ _ _ _ Hv).
Qed.

(** *** Writing an order and reading it back *)

Lemma store_order_lookup_eq (t i : string) (o : Order) (db : orders_t) :
  store_order t i o db !! t = Some (<[i := o]> (default ∅ (db !! t))).
Proof.
  unfold store_order. destruct (db !! t) as [d|] eqn:Hd; rewrite lookup_insert_eq.
  - by rewrite Hd.
  - by rewrite lookup_insert_eq.
Qed.

Lemma store_order_lookup_ne (t t' i : string) (o : Order) (db : orders_t) :
  t <> t' -> store_order t i o db !! t' = db !! t'.
Proof.
  intros Hne. unfold store_order.
  destruct (db !! t); by rewrite !lookup_insert_ne.
Qed.

(** What a call of [create_order] can do to the store: nothing, or one
    [store_order] of an order carrying the tenant and the key. *)
Lemma create_order_orders (request : CreateOrderRequest) (t : string)
    (s s' : State World) (r : result Order) :
  create_order rt request t s = (r, s') ->
  (orders s' = orders s /\ exists e, r = Raise e)
  \/ (exists o : Order,
        r = Return o
        /\ OrderService.tenant_id o = t
        /\ orders s' = store_order t (id o) o (orders s)).
Proof.
  rewrite create_order_unfold.
  pose proof (validate_menu_items_orders rt t (req_items request) s) as Hkeep.
  destruct (validate_menu_items rt t (req_items request) s) as [[b|e1] s1];
    simpl in Hkeep.
  - destruct (line_totals (req_items request)) as [xs|]; intros [= <- <-].
    + right. eexists. split; [reflexivity|]. cbn -[store_order].
      by rewrite Hkeep.
    + left. eauto.
  - intros [= <- <-]. left. eauto.
Qed.

Lemma update_order_status_orders (order_id : string) (new_status : OrderStatus)
    (t : string) (s s' : State World) (r : result Order) :
  update_order_status rt order_id new_status t s = (r, s') ->
  (orders s' = orders s /\ issued s' = issued s /\ exists e, r = Raise e)
  \/ (exists o o' : Order,
        find_order (orders s) t order_id = Some o
        /\ r = Return o'
        /\ issued s' = issued s
        /\ orders s' = store_order t order_id o' (orders s)).
Proof.
  unfold update_order_status.
  destruct (find_order (orders s) t order_id) as [o|] eqn:Hfind.
  - unfold bind, call_datetime_now, set_orders, ret.
    destruct (datetime_now rt (world s)) as [now w1].
    intros [= <- <-]. right. by eexists _, _.
  - intros [= <- <-]. left. eauto.
Qed.

(** X7. A created order starts in status [PENDING] with equal [created_at]
    and [updated_at], under the tenant of the call and with the customer,
    table and notes of the request; right after the call [get_order] under
    that tenant and id returns it and [get_orders] lists it. *)
Theorem created_order_can_be_read_back
    (request : CreateOrderRequest) (tenant_id : string) (s s' : State World)
    (o : Order) :
  create_order rt request tenant_id s = (Return o, s') ->
  (status o = PENDING
   /\ created_at o = updated_at o
   /\ OrderService.tenant_id o = tenant_id
   /\ customer_name o = req_customer_name request
   /\ table_number o = req_table_number request
   /\ notes o = req_notes request)
  /\ get_order (id o) tenant_id s' = (Return o, s')
  /\ (exists l : list Order, get_orders tenant_id s' = (Return l, s') /\ In o l).
Proof.
  intros Hc.
  assert (find_order (orders s') tenant_id (id o) = Some o) as Hfind.
  { apply create_order_orders in Hc as [[_ [e He]]|(o1 & [= <-] & _ & ->)]; [done|].
    apply find_order_store_order_eq. }
  split; [|split].
  - revert Hc. rewrite create_order_unfold.
    destruct (validate_menu_items rt tenant_id (req_items request) s) as [[b|e1] s1];
      [|done].
    destruct (line_totals (req_items request)) as [xs|]; [|done].
    by intros [= <- <-].
  - unfold get_order. by rewrite Hfind.
  - unfold find_order in Hfind. unfold get_orders.
    destruct (orders s' !! tenant_id) as [d|]; [|done].
    eexists. split; [reflexivity|].
    apply list_elem_of_In, list_elem_of_fmap. exists (id o, o). split; [done|].
    by apply elem_of_map_to_list.
Qed.

(** X8. When the generated id is not yet in use under the tenant, the list
    of the tenant's orders after the creation is the list before with the
    new order added (in some order); the list of every other tenant is the
    same as before. *)
Theorem listing_grows_by_the_new_order
    (request : CreateOrderRequest) (tenant_id : string) (s s' : State World)
    (o : Order) (l : list Order) :
  create_order rt request tenant_id s = (Return o, s') ->
  find_order (orders s) tenant_id (id o) = None ->
  get_orders tenant_id s = (Return l, s) ->
  (exists l' : list Order,
     get_orders tenant_id s' = (Return l', s') /\ l' ≡ₚ o :: l)
  /\ (forall (t2 : string) (l2 : list Order),
        t2 <> tenant_id ->
        get_orders t2 s = (Return l2, s) ->
        get_orders t2 s' = (Return l2, s')).
Proof.
  intros Hc Hfresh Hl.
  apply create_order_orders in Hc as [[_ [e He]]|(o1 & [= <-] & _ & Hs')]; [done|].
  split.
  - unfold get_orders in *. rewrite Hs', store_order_lookup_eq.
    eexists. split; [reflexivity|].
    unfold find_order in Hfresh.
    destruct (orders s !! tenant_id) as [d|]; simpl.
    + injection Hl as <-. by rewrite map_to_list_insert.
    + injection Hl as <-. by rewrite map_to_list_insert, map_to_list_empty.
  - intros t2 l2 Hne. unfold get_orders.
    rewrite Hs', store_order_lookup_ne by done.
    destruct (orders s !! t2); by intros [= <-].
Qed.

(** X9. A status update that returns touches one order only: [get_order]
    then returns the updated order, no catalog lookup is sent, every other
    order is as before, and no order is added or removed. *)
Theorem update_order_status_touches_one_order
    (order_id : string) (new_status : OrderStatus) (tenant_id : string)
    (s s' : State World) (o' : Order) :
  update_order_status rt order_id new_status tenant_id s = (Return o', s') ->
  get_order order_id tenant_id s' = (Return o', s')
  /\ issued s' = issued s
  /\ (forall t2 i2 : string,
        (t2, i2) <> (tenant_id, order_id) ->
        find_order (orders s') t2 i2 = find_order (orders s) t2 i2)
  /\ (forall t2 i2 : string,
        is_Some (find_order (orders s') t2 i2)
        <-> is_Some (find_order (orders s) t2 i2)).
Proof.
  intros Hu.
  apply update_order_status_orders in Hu
    as [(_ & _ & [e He])|(o & o1 & Hfind & [= <-] & Hissued & Hs')]; [done|].
  split; [|split; [exact Hissued|split]].
  - unfold get_order. by rewrite Hs', find_order_store_order_eq.
  - intros t2 i2 Hne. by rewrite Hs', find_order_store_order_ne.
  - intros t2 i2. rewrite Hs'.
    destruct (decide ((t2, i2) = (tenant_id, order_id))) as [[= -> ->]|Hne].
    + rewrite find_order_store_order_eq, Hfind. split; eauto.
    + by rewrite find_order_store_order_ne.
Qed.

(** *** The routes and sequences of requests *)

Lemma get_tenant_id_cases (x : option string) :
  (get_tenant_id x = Raise (HTTPException 400 "X-Tenant-ID header required")
   /\ (x = None \/ x = Some ""%string))
  \/ (exists t : string, get_tenant_id x = Return t /\ x = Some t /\ t <> ""%string).
Proof.
  destruct x as [t|]; simpl; [|by left; auto].
  destruct (String.eqb t "") eqn:E.
  - apply String.eqb_eq in E as ->. left. auto.
  - apply String.eqb_neq in E. right. eauto.
Qed.

(** X10. A request without the header [X-Tenant-ID], or with an empty
    one, is refused by each of the four routes with the 400
    "X-Tenant-ID header required" before anything else happens: no lookup
    is sent and the state is the one before. *)
Theorem requests_without_tenant_are_refused
    (x_tenant_id : option string) (s : State World) :
  x_tenant_id = None \/ x_tenant_id = Some ""%string ->
  let e := HTTPException 400 "X-Tenant-ID header required" in
  (forall request, post_orders rt request x_tenant_id s = (Raise e, s))
  /\ get_orders_route x_tenant_id s = (Raise e, s)
  /\ (forall order_id, get_order_route order_id x_tenant_id s = (Raise e, s))
  /\ (forall order_id new_status,
        patch_order_status rt order_id new_status x_tenant_id s = (Raise e, s)).
Proof.
  intros Hx e.
  assert (get_tenant_id x_tenant_id = Raise e) as Hraise.
  { by destruct Hx as [-> | ->]. }
  unfold post_orders, get_orders_route, get_order_route, patch_order_status,
    depends_get_tenant_id.
  rewrite Hraise. by repeat split.
Qed.

(** What serving one request can do to the store: nothing, or one
    [store_order] under the tenant of its header. *)
Lemma serve_orders (c : call) (s : State World) :
  orders (serve rt c s) = orders s
  \/ (exists (t i : string) (o : Order),
        header_of c = Some t
        /\ orders (serve rt c s) = store_order t i o (orders s)).
Proof.
  destruct c as [request x|x|order_id x|order_id new_status x]; simpl;
    unfold post_orders, get_orders_route, get_order_route, patch_order_status,
      depends_get_tenant_id;
    destruct (get_tenant_id_cases x) as [[-> _]|(t & -> & -> & _)];
    try (by left).
  - destruct (create_order rt request t s) as [r s'] eqn:Hc. simpl.
    apply create_order_orders in Hc as [[-> _]|(o & _ & _ & ->)]; [by left|].
    right. by exists t, (id o), o.
  - left. unfold get_orders. by destruct (orders s !! t).
  - left. unfold get_order. by destruct (find_order (orders s) t order_id).
  - destruct (update_order_status rt order_id new_status t s) as [r s'] eqn:Hu.
    simpl.
    apply update_order_status_orders in Hu
      as [(-> & _)|(o & o' & _ & _ & _ & ->)]; [by left|].
    right. by exists t, order_id, o'.
Qed.

Lemma serve_store_ok (c : call) (s : State World) :
  store_ok (orders s) -> store_ok (orders (serve rt c s)).
Proof.
  intros Hok.
  destruct c as [request x|x|order_id x|order_id new_status x]; simpl;
    unfold post_orders, get_orders_route, get_order_route, patch_order_status,
      depends_get_tenant_id;
    destruct (get_tenant_id_cases x) as [[-> _]|(t & -> & -> & _)];
    try done.
  - destruct (create_order rt request t s) as [r s'] eqn:Hc. simpl.
    by apply (create_order_store_ok rt _ _ _ _ _ Hok Hc).
  - unfold get_orders. by destruct (orders s !! t).
  - unfold get_order. by destruct (find_order (orders s) t order_id).
  - destruct (update_order_status rt order_id new_status t s) as [r s'] eqn:Hu.
    simpl. by apply (update_order_status_store_ok rt _ _ _ _ _ _ Hok Hu).
Qed.

Lemma serve_all_cons (c : call) (calls : list call) (s : State World) :
  serve_all rt (c :: calls) s = serve_all rt calls (serve rt c s).
Proof. reflexivity. Qed.

(** X11. Whatever requests are served, in whatever order, every stored
    order stays under the tenant and the id it carries: from a store with
    that property, the empty one for instance, the service only reaches
    stores with it. *)
Theorem every_order_sits_under_its_tenant_and_id
    (calls : list call) (s : State World) :
  store_ok (orders s) ->
  store_ok (orders (serve_all rt calls s)).
Proof.
  revert s. induction calls as [|c calls IH]; intros s Hok; [exact Hok|].
  rewrite serve_all_cons. apply IH. by apply serve_store_ok.
Qed.

(** X12. No request removes an order: an id that holds an order under a
    tenant holds one after any sequence of requests. *)
Theorem orders_are_never_removed
    (calls : list call) (s : State World) (tenant_id order_id : string) :
  is_Some (find_order (orders s) tenant_id order_id) ->
  is_Some (find_order (orders (serve_all rt calls s)) tenant_id order_id).
Proof.
  revert s. induction calls as [|c calls IH]; intros s Hsome; [exact Hsome|].
  rewrite serve_all_cons. apply IH.
  destruct (serve_orders c s) as [->|(t & i & o & _ & ->)]; [exact Hsome|].
  destruct (decide ((tenant_id, order_id) = (t, i))) as [[= -> ->]|Hne].
  - rewrite find_order_store_order_eq. eauto.
  - by rewrite find_order_store_order_ne.
Qed.

(** X13. Requests made under other tenants never change what a tenant
    sees: after any sequence of requests none of which carries the header
    of tenant [B], [get_orders] and [get_order] under [B] return what they
    returned before. *)
Theorem other_tenants_requests_leave_a_tenant_alone
    (calls : list call) (s : State World) (B : string) :
  Forall (fun c => header_of c <> Some B) calls ->
  fst (get_orders B (serve_all rt calls s)) = fst (get_orders B s)
  /\ (forall order_id : string,
        fst (get_order order_id B (serve_all rt calls s)) =
        fst (get_order order_id B s)).
Proof.
  intros Hothers.
  assert (orders (serve_all rt calls s) !! B = orders s !! B) as Hsame.
  { revert s. induction Hothers as [|c calls Hc _ IH]; intros s; [done|].
    rewrite serve_all_cons, IH.
    destruct (serve_orders c s) as [->|(t & i & o & Ht & ->)]; [done|].
    apply store_order_lookup_ne. congruence. }
  split.
  - unfold get_orders. rewrite Hsame. by destruct (orders s !! B).
  - intros order_id. unfold get_order, find_order. rewrite Hsame.
    destruct (orders s !! B) as [d|]; [|done]. by destruct (d !! order_id).
Qed.

Lemma same_content_refl (o : Order) : same_content o o.
Proof. by repeat split. Qed.

Lemma same_content_trans (o1 o2 o3 : Order) :
  same_content o1 o2 -> same_content o2 o3 -> same_content o1 o3.
Proof.
  unfold same_content. intros (?&?&?&?&?&?&?&?) (?&?&?&?&?&?&?&?).
  repeat split; congruence.
Qed.

(** Serving a request that is not a [POST /orders] keeps the content of
    every stored order. *)
Lemma serve_keeps_content (c : call) (s : State World) (t i : string) (o : Order) :
  (forall request x, c <> PostOrders request x) ->
  find_order (orders s) t i = Some o ->
  exists o' : Order,
    find_order (orders (serve rt c s)) t i = Some o' /\ same_content o o'.
Proof.
  intros Hnot Hfind.
  destruct c as [request x|x|order_id x|order_id new_status x]; simpl;
    unfold get_orders_route, get_order_route, patch_order_status,
      depends_get_tenant_id.
  - by destruct (Hnot request x).
  - exists o. split; [|apply same_content_refl].
    destruct (get_tenant_id_cases x) as [[-> _]|(t0 & -> & _)]; [done|].
    unfold get_orders. by destruct (orders s !! t0).
  - exists o. split; [|apply same_content_refl].
    destruct (get_tenant_id_cases x) as [[-> _]|(t0 & -> & _)]; [done|].
    unfold get_order. by destruct (find_order (orders s) t0 order_id).
  - destruct (get_tenant_id_cases x) as [[-> _]|(t0 & -> & _)].
    { exists o. split; [done|apply same_content_refl]. }
    unfold update_order_status.
    destruct (find_order (orders s) t0 order_id) as [o0|] eqn:Hfind0.
    2:{ exists o. split; [done|apply same_content_refl]. }
    unfold bind, call_datetime_now, set_orders, ret.
    destruct (datetime_now rt (world s)) as [now w1]. cbn -[find_order store_order].
    destruct (decide ((t, i) = (t0, order_id))) as [[= -> ->]|Hne].
    + rewrite find_order_store_order_eq. eexists. split; [reflexivity|].
      rewrite Hfind in Hfind0. injection Hfind0 as <-. by repeat split.
    + rewrite find_order_store_order_ne by done.
      exists o. split; [done|apply same_content_refl].
Qed.

(** X19. Status updates and reads never alter what was ordered: after any
    sequence of requests without a [POST /orders], every order of the
    store is still there with the id, tenant, customer, table, lines,
    total, notes and [created_at] it had; only [status] and [updated_at]
    can differ. *)
Theorem updates_and_reads_keep_the_order_content
    (calls : list call) (s : State World) (tenant_id order_id : string) (o : Order) :
  Forall (fun c => forall request x, c <> PostOrders request x) calls ->
  find_order (orders s) tenant_id order_id = Some o ->
  exists o' : Order,
    find_order (orders (serve_all rt calls s)) tenant_id order_id = Some o'
    /\ same_content o o'.
Proof.
  intros Hcalls. revert s o.
  induction Hcalls as [|c calls Hc _ IH]; intros s o Hfind.
  - exists o. split; [exact Hfind|apply same_content_refl].
  - rewrite serve_all_cons.
    destruct (serve_keeps_content c s _ _ _ Hc Hfind) as (o1 & Hfind1 & Hsame1).
    destruct (IH _ _ Hfind1) as (o' & Hfind' & Hsame').
    exists o'. split; [exact Hfind'|]. by apply (same_content_trans _ o1).
Qed.

(** *** Validation against the catalog service *)





End MoreProperties.

(** ** Properties of the catalog service *)

Section CatalogProperties.

Lemma find_first_match {A : Type} (f : A -> bool) (l : list A) (x : A) :
  find f l = Some x ->
  f x = true
  /\ exists before after : list A,
       l = before ++ x :: after /\ Forall (fun y => f y = false) before.
Proof.
  induction l as [|y l IH]; simpl; [done|].
  destruct (f y) eqn:Hy.
  - intros [= ->]. split; [done|]. exists [], l. split; [done|constructor].
  - intros Hfind. destruct (IH Hfind) as (Hx & before & after & -> & Hbefore).
    split; [done|]. exists (y :: before), after. split; [done|].
    by constructor.
Qed.

Lemma find_no_match {A : Type} (f : A -> bool) (l : list A) :
  find f l = None <-> Forall (fun y => f y = false) l.
Proof.
  induction l as [|y l IH]; simpl.
  - split; [constructor|done].
  - destruct (f y) eqn:Hy.
    + split; [done|]. intros H. apply Forall_cons in H as [H _]. congruence.
    + rewrite IH. split; [by constructor|]. intros H.
      by apply Forall_cons in H as [_ H].
Qed.

(** X15. The entry that [get_menu_item] returns carries the requested id
    and is the first entry of the tenant's menu that does: the entries
    before it have other ids.  It ends in a 404, its only exception, when
    the tenant has no menu or no entry of the menu carries the id. *)
Theorem get_menu_item_returns_the_first_match
    (menu_db : Catalog.menu_items_t) (item_id tenant_id : string) :
  (forall entry : Catalog.MenuItem,
     Catalog.get_menu_item menu_db item_id tenant_id = Return entry ->
     Catalog.id entry = item_id
     /\ exists entries before after : list Catalog.MenuItem,
          menu_db !! tenant_id = Some entries
          /\ entries = before ++ entry :: after
          /\ Forall (fun i => Catalog.id i <> item_id) before)
  /\ (forall e : exn,
        Catalog.get_menu_item menu_db item_id tenant_id = Raise e ->
        (exists detail, e = HTTPException 404 detail)
        /\ (menu_db !! tenant_id = None
            \/ exists entries,
                 menu_db !! tenant_id = Some entries
                 /\ Forall (fun i => Catalog.id i <> item_id) entries)).
Proof.
  unfold Catalog.get_menu_item. split.
  - intros entry. destruct (menu_db !! tenant_id) as [entries|]; [|done].
    destruct (find _ entries) as [i|] eqn:Hfind; [|done].
    intros [= ->]. apply find_first_match in Hfind
      as (Heq & before & after & -> & Hbefore).
    apply String.eqb_eq in Heq. split; [done|].
    exists (before ++ entry :: after), before, after. repeat split.
    eapply Forall_impl; [exact Hbefore|]. simpl. intros i Hi.
    by apply String.eqb_neq.
  - intros e. destruct (menu_db !! tenant_id) as [entries|]; [|intros [= <-]; eauto].
    destruct (find _ entries) as [i|] eqn:Hfind; [done|].
    intros [= <-]. split; [eauto|]. right. exists entries. split; [done|].
    apply find_no_match in Hfind.
    eapply Forall_impl; [exact Hfind|]. simpl. intros i Hi.
    by apply String.eqb_neq.
Qed.

(** X16. [get_menu] and [get_menu_item] agree: the menu that [get_menu]
    returns is the tenant's, its [total] is the number of its entries, the
    id of each of its entries is found by [get_menu_item], and whatever
    [get_menu_item] returns is one of its entries; when [get_menu] raises,
    [get_menu_item] raises the same exception for every id. *)
Theorem get_menu_agrees_with_get_menu_item
    (menu_db : Catalog.menu_items_t) (tenant_id : string) :
  (forall menu : Catalog.Menu,
     Catalog.get_menu menu_db tenant_id = Return menu ->
     Catalog.menu_tenant_id menu = tenant_id
     /\ Catalog.menu_total menu = Z.of_nat (length (Catalog.menu_items menu))
     /\ (forall entry, In entry (Catalog.menu_items menu) ->
           exists found,
             Catalog.get_menu_item menu_db (Catalog.id entry) tenant_id = Return found
             /\ Catalog.id found = Catalog.id entry)
     /\ (forall item_id found,
           Catalog.get_menu_item menu_db item_id tenant_id = Return found ->
           In found (Catalog.menu_items menu)))
  /\ (forall e : exn,
        Catalog.get_menu menu_db tenant_id = Raise e ->
        forall item_id, Catalog.get_menu_item menu_db item_id tenant_id = Raise e).
Proof.
  unfold Catalog.get_menu, Catalog.get_menu_item. split.
  - intros menu. destruct (menu_db !! tenant_id) as [entries|]; [|done].
    intros [= <-]. simpl. repeat split.
    + intros entry Hin. destruct (find _ entries) as [found|] eqn:Hfind.
      * apply find_some in Hfind as [Hfound Heq]. apply String.eqb_eq in Heq.
        eauto.
      * eapply find_none in Hfind; [|exact Hin]. simpl in Hfind.
        by rewrite String.eqb_refl in Hfind.
    + intros item_id found. destruct (find _ entries) as [i|] eqn:Hfind; [|done].
      intros [= <-]. by apply find_some in Hfind as [Hin _].
  - intros e. destruct (menu_db !! tenant_id); [done|]. by intros [= <-].
Qed.

Lemma In_low_stock (inv : gmap string Catalog.Stock) (item_id : string) :
  In item_id (List.filter (fun entry => Catalog.is_low (snd entry)) (map_to_list inv)).*1
  <-> exists data, inv !! item_id = Some data /\ Catalog.is_low data = true.
Proof.
  rewrite <- list_elem_of_In, list_elem_of_fmap. split.
  - intros ([i data] & -> & Hin). apply list_elem_of_In, filter_In in Hin as [Hin Hlow].
    apply list_elem_of_In, elem_of_map_to_list in Hin. eauto.
  - intros (data & Hdata & Hlow). exists (item_id, data). split; [done|].
    apply list_elem_of_In, filter_In. split; [|done].
    by apply list_elem_of_In, elem_of_map_to_list.
Qed.

Lemma NoDup_filter_fst {A B : Type} (f : A * B -> bool) (l : list (A * B)) :
  NoDup l.*1 -> NoDup (List.filter f l).*1.
Proof.
  induction l as [|x l IH]; simpl; [done|].
  intros Hnd. apply NoDup_cons in Hnd as [Hx Hl].
  destruct (f x); simpl; [|by apply IH].
  apply NoDup_cons. split; [|by apply IH].
  intros Hin. apply Hx. apply list_elem_of_fmap in Hin as (y & -> & Hy).
  apply list_elem_of_fmap. exists y. split; [done|].
  apply list_elem_of_In. apply list_elem_of_In, filter_In in Hy. tauto.
Qed.

(** X17. The two inventory reads agree.  In the report of [get_inventory]
    an id is among [low_stock_items] exactly when [get_item_inventory]
    returns for it a record with [is_low_stock] set, no id is listed
    twice, and a record [get_item_inventory] returns carries the stored
    quantity and threshold, with [is_low_stock] set exactly when the
    quantity is at most the threshold. *)
Theorem low_stock_items_agree_with_item_inventory
    (inventory : Catalog.inventory_t) (tenant_id : string)
    (report : Catalog.Inventory) :
  Catalog.get_inventory inventory tenant_id = Return report ->
  Catalog.inventory_tenant_id report = tenant_id
  /\ NoDup (Catalog.low_stock_items report)
  /\ (forall item_id : string,
        In item_id (Catalog.low_stock_items report)
        <-> exists record,
              Catalog.get_item_inventory inventory item_id tenant_id = Return record
              /\ Catalog.is_low_stock record = true)
  /\ (forall (item_id : string) (record : Catalog.ItemInventory),
        Catalog.get_item_inventory inventory item_id tenant_id = Return record ->
        Catalog.stock_item_id record = item_id
        /\ Catalog.stock_tenant_id record = tenant_id
        /\ Catalog.inventory_levels report !! item_id =
           Some (Catalog.mkStock (Catalog.stock_quantity record)
                   (Catalog.stock_low_stock_threshold record))
        /\ (Catalog.is_low_stock record = true
            <-> Catalog.stock_quantity record
                <= Catalog.stock_low_stock_threshold record)).
Proof.
  unfold Catalog.get_inventory, Catalog.get_item_inventory.
  destruct (inventory !! tenant_id) as [inv|]; [|done].
  intros [= <-]. simpl. split; [done|]. split; [|split].
  - apply NoDup_filter_fst, NoDup_fst_map_to_list.
  - intros item_id. rewrite In_low_stock. split.
    + intros (data & -> & Hlow). eauto.
    + intros (record & Hrecord & Hlow).
      destruct (inv !! item_id) as [data|]; [|done].
      injection Hrecord as <-. eauto.
  - intros item_id record.
    destruct (inv !! item_id) as [[q th]|]; [|done].
    intros [= <-]. simpl. repeat split; unfold Catalog.is_low; simpl;
      by apply Z.leb_le.
Qed.

(** X18. [get_item_inventory] ends in the 404 "No inventory for item:
    <id>", its only exception, exactly when the tenant has no inventory or
    the tenant's inventory has no record for the id; in particular it
    raises for every id when [get_inventory] raises. *)
Theorem item_inventory_not_found
    (inventory : Catalog.inventory_t) (item_id tenant_id : string) (e : exn) :
  Catalog.get_item_inventory inventory item_id tenant_id = Raise e ->
  e = HTTPException 404 ("No inventory for item: " +:+ item_id)
  /\ (forall report,
        Catalog.get_inventory inventory tenant_id = Return report ->
        Catalog.inventory_levels report !! item_id = None)
  /\ (forall e', Catalog.get_inventory inventory tenant_id = Raise e' ->
        e' = HTTPException 404 ("No inventory for tenant: " +:+ tenant_id)).
Proof.
  unfold Catalog.get_inventory, Catalog.get_item_inventory.
  destruct (inventory !! tenant_id) as [inv|].
  - destruct (inv !! item_id) as [data|] eqn:Hdata; [done|].
    intros [= <-]. split; [done|]. split; [|done].
    by intros report [= <-].
  - intros [= <-]. split; [done|]. split; [done|]. by intros e' [= <-].
Qed.

End CatalogProperties.

(** ** The further properties on the deployment *)

Section MoreOnTheDeployment.
Import OrderService Deployment.

(** X1 at work: two of the three lines are looked up before the 400. *)
Lemma create_order_lookups_follow_the_lines_witness :
  let s := start [] ["u1"%string] [100] in
  let r := Raise (HTTPException 400 "Item ghost-999 not found in menu") in
  let s' := after_lookups sim s demo ["burger-001"; "ghost-999"]%string in
  create_order sim burger_ghost_pizza demo s = (r, s')
  /\ exists n : nat,
       (n <= length (req_items burger_ghost_pizza))%nat
       /\ issued s' =
          issued s ++ (pair demo <$> take n (item_id <$> req_items burger_ghost_pizza))
       /\ (forall o : Order,
             r = Return o -> n = length (req_items burger_ghost_pizza)).
Proof.
  intros s r s'.
  assert (create_order sim burger_ghost_pizza demo s = (r, s')) as Hrun
    by (vm_compute; reflexivity).
  split; [exact Hrun|].
  exact (create_order_lookups_follow_the_lines sim burger_ghost_pizza demo s s' r Hrun).
Defined.

(** X2 at work: the burger is found and available. *)
Lemma validation_passes_only_on_accepted_answers_witness :
  let s := start [] [] [] in
  let s1 := after_lookups sim s demo ["burger-001"%string] in
  validate_menu_items sim demo (req_items two_burgers) s = (Return true, s1)
  /\ true = true
  /\ s1 = after_lookups sim s demo (item_id <$> req_items two_burgers)
  /\ Forall accepted (answers sim (world s) demo (item_id <$> req_items two_burgers)).
Proof.
  intros s s1.
  assert (validate_menu_items sim demo (req_items two_burgers) s = (Return true, s1))
    as Hv by (vm_compute; reflexivity).
  split; [exact Hv|].
  exact (validation_passes_only_on_accepted_answers sim demo (req_items two_burgers)
           s s1 true Hv).
Defined.

(** X3 at work: [client.get] refuses the URL; the exception escapes. *)
Lemma create_order_exceptions_witness :
  let s := start [Some (Escaped "InvalidURL")] ["u1"%string] [100] in
  let e := EscapedFromGet "InvalidURL" in
  let s' := after_lookups sim s demo ["burger-001"%string] in
  create_order sim two_burgers demo s = (Raise e, s')
  /\ ((exists detail, e = HTTPException 400 detail)
      \/ (exists detail, e = HTTPException 503 detail)
      \/ (exists code, e = HTTPStatusError code /\ ~ (200 <= code <= 299))
      \/ e = JSONDecodeError
      \/ e = AttributeError
      \/ e = OverflowError
      \/ (exists name, e = EscapedFromGet name)).
Proof.
  intros s e s'.
  assert (create_order sim two_burgers demo s = (Raise e, s')) as Hc
    by (vm_compute; reflexivity).
  split; [exact Hc|].
  exact (create_order_exceptions sim two_burgers demo s s' e Hc).
Defined.

(** X4 at work: the catalog answers 503. *)
Lemma error_status_escapes_as_HTTPStatusError_witness :
  let response := mkResponse 503 None in
  let s := start [Some (Responded response)] ["u1"%string] [100] in
  let s1 := after_lookups sim s demo (item_id <$> ([] ++ [mkOrderItem "burger-001" 2 12.99%float])) in
  req_items two_burgers = [] ++ mkOrderItem "burger-001" 2 12.99%float :: []
  /\ answers sim (world s) demo
       (item_id <$> ([] ++ [mkOrderItem "burger-001" 2 12.99%float])) =
     [] ++ [Responded response]
  /\ Forall found_available []
  /\ 400 <= status_code response <= 599
  /\ status_code response <> 404
  /\ validate_menu_items sim demo (req_items two_burgers) s =
     (Raise (HTTPStatusError (status_code response)), s1)
  /\ create_order sim two_burgers demo s =
     (Raise (HTTPStatusError (status_code response)), s1)
  /\ orders s1 = orders s.
Proof.
  intros response s s1.
  assert (req_items two_burgers = [] ++ mkOrderItem "burger-001" 2 12.99%float :: [])
    as H1 by reflexivity.
  assert (answers sim (world s) demo
            (item_id <$> ([] ++ [mkOrderItem "burger-001" 2 12.99%float])) =
          [] ++ [Responded response]) as H2 by (vm_compute; reflexivity).
  assert (Forall found_available []) as H3 by constructor.
  assert (400 <= status_code response <= 599) as H4 by (simpl; lia).
  assert (status_code response <> 404) as H5 by (simpl; lia).
  do 5 (split; [assumption|]).
  exact (error_status_escapes_as_HTTPStatusError sim two_burgers demo
           [] (mkOrderItem "burger-001" 2 12.99%float) [] [] response s
           H1 H2 H3 H4 H5).
Defined.

(** X5 at work: a 200 whose object has no [available] field. *)
Lemma unexpected_bodies_witness :
  let content := Some (JObject [("id"%string, JString "burger-001")]) in
  let s := start [Some (Responded (mkResponse 200 content))] [] [] in
  let item := mkOrderItem "burger-001" 2 12.99%float in
  let s1 := after_lookups sim s demo (item_id <$> ([] ++ [item])) in
  answers sim (world s) demo (item_id <$> ([] ++ [item])) =
    [] ++ [Responded (mkResponse 200 content)]
  /\ Forall found_available []
  /\ 200 <= 200 <= 299
  /\ validate_menu_items sim demo ([] ++ item :: []) s =
     (Raise (HTTPException 400 "Item burger-001 is not available"), s1).
Proof.
  intros content s item s1.
  assert (answers sim (world s) demo (item_id <$> ([] ++ [item])) =
          [] ++ [Responded (mkResponse 200 content)]) as H1
    by (vm_compute; reflexivity).
  assert (Forall found_available []) as H2 by constructor.
  assert (200 <= 200 <= 299) as H3 by lia.
  do 3 (split; [assumption|]).
  destruct (unexpected_bodies sim demo [] item [] [] 200 content s H1 H2 H3)
    as (_ & _ & Hmissing).
  exact (Hmissing [("id"%string, JString "burger-001")] eq_refl eq_refl).
Defined.

(** X6 at work: 2^1024 burgers. *)
Lemma overflowing_total_stores_nothing_witness :
  let s := start [] ["u1"%string] [100] in
  let s1 := after_lookups sim s demo ["burger-001"%string] in
  validate_menu_items sim demo (req_items too_many_burgers) s = (Return true, s1)
  /\ line_totals (req_items too_many_burgers) = None
  /\ create_order sim too_many_burgers demo s = (Raise OverflowError, s1)
  /\ orders s1 = orders s
  /\ issued s1 =
     issued s ++ (pair demo <$> (item_id <$> req_items too_many_burgers)).
Proof.
  intros s s1.
  assert (validate_menu_items sim demo (req_items too_many_burgers) s
          = (Return true, s1)) as Hv by (vm_compute; reflexivity).
  assert (line_totals (req_items too_many_burgers) = None) as Hnone
    by (vm_compute; reflexivity).
  split; [exact Hv|]. split; [exact Hnone|].
  exact (overflowing_total_stores_nothing sim too_many_burgers demo s s1 Hv Hnone).
Defined.

(** X7 at work: the first order, read back. *)
Lemma created_order_can_be_read_back_witness :
  let s := start [] ["u1"%string] [100] in
  let s' := after_first_order [] ["u1"%string] [100] in
  create_order sim two_burgers demo s = (Return first_order, s')
  /\ (status first_order = PENDING
      /\ created_at first_order = updated_at first_order
      /\ OrderService.tenant_id first_order = demo
      /\ customer_name first_order = req_customer_name two_burgers
      /\ table_number first_order = req_table_number two_burgers
      /\ notes first_order = req_notes two_burgers)
  /\ get_order (id first_order) demo s' = (Return first_order, s')
  /\ (exists l : list Order,
        get_orders demo s' = (Return l, s') /\ In first_order l).
Proof.
  intros s s'.
  assert (create_order sim two_burgers demo s = (Return first_order, s')) as Hc
    by (vm_compute; reflexivity).
  split; [exact Hc|].
  exact (created_order_can_be_read_back sim two_burgers demo s s' first_order Hc).
Defined.

(** X8 at work: the first order of the tenant. *)
Lemma listing_grows_by_the_new_order_witness :
  let s := start [] ["u1"%string] [100] in
  let s' := after_first_order [] ["u1"%string] [100] in
  create_order sim two_burgers demo s = (Return first_order, s')
  /\ find_order (orders s) demo (id first_order) = None
  /\ get_orders demo s = (Return [], s)
  /\ (exists l' : list Order,
        get_orders demo s' = (Return l', s') /\ l' ≡ₚ first_order :: [])
  /\ (forall (t2 : string) (l2 : list Order),
        t2 <> demo ->
        get_orders t2 s = (Return l2, s) ->
        get_orders t2 s' = (Return l2, s')).
Proof.
  intros s s'.
  assert (create_order sim two_burgers demo s = (Return first_order, s')) as Hc
    by (vm_compute; reflexivity).
  assert (find_order (orders s) demo (id first_order) = None) as Hfresh
    by reflexivity.
  assert (get_orders demo s = (Return [], s)) as Hl by reflexivity.
  do 3 (split; [assumption|]).
  exact (listing_grows_by_the_new_order sim two_burgers demo s s' first_order []
           Hc Hfresh Hl).
Defined.

(** X9 at work: the first order is marked ready at time 250. *)
Lemma update_order_status_touches_one_order_witness :
  let s := after_first_order [] ["u1"%string] [100; 250] in
  let o' := restamp first_order READY 250 in
  let s' := snd (update_order_status sim "u1" READY demo s) in
  update_order_status sim "u1" READY demo s = (Return o', s')
  /\ get_order "u1" demo s' = (Return o', s')
  /\ issued s' = issued s
  /\ (forall t2 i2 : string,
        (t2, i2) <> (demo, "u1"%string) ->
        find_order (orders s') t2 i2 = find_order (orders s) t2 i2)
  /\ (forall t2 i2 : string,
        is_Some (find_order (orders s') t2 i2)
        <-> is_Some (find_order (orders s) t2 i2)).
Proof.
  intros s o' s'.
  assert (update_order_status sim "u1" READY demo s = (Return o', s')) as Hu
    by (vm_compute; reflexivity).
  split; [exact Hu|].
  exact (update_order_status_touches_one_order sim "u1" READY demo s s' o' Hu).
Defined.

(** X10 at work: no header at all. *)
Lemma requests_without_tenant_are_refused_witness :
  let s := start [] ["u1"%string] [100] in
  let e := HTTPException 400 "X-Tenant-ID header required" in
  (@None string = None \/ @None string = Some ""%string)
  /\ (forall request, post_orders sim request None s = (Raise e, s))
  /\ get_orders_route None s = (Raise e, s)
  /\ (forall order_id, get_order_route order_id None s = (Raise e, s))
  /\ (forall order_id new_status,
        patch_order_status sim order_id new_status None s = (Raise e, s)).
Proof.
  intros s e.
  assert (@None string = None \/ @None string = Some ""%string) as Hx by (by left).
  split; [exact Hx|].
  exact (requests_without_tenant_are_refused sim None s Hx).
Defined.

(** X11 at work: an order, a status update and a refused request, from the
    empty store. *)
Lemma every_order_sits_under_its_tenant_and_id_witness :
  let s := start [] ["u1"%string] [100; 250] in
  let calls := [PostOrders two_burgers (Some demo);
                PatchOrderStatus "u1" CONFIRMED (Some demo);
                PostOrders one_pizza None] in
  store_ok (orders s)
  /\ store_ok (orders (serve_all sim calls s)).
Proof.
  intros s calls.
  assert (store_ok (orders s)) as Hok by apply store_ok_empty.
  split; [exact Hok|].
  exact (every_order_sits_under_its_tenant_and_id sim calls s Hok).
Defined.

(** X12 at work: the first order outlives an update, another order under
    the same tenant and one under another. *)
Lemma orders_are_never_removed_witness :
  let s := after_first_order [] ["u1"; "u2"; "u3"]%string [100; 250; 300; 350] in
  let calls := [PatchOrderStatus "u1" CANCELLED (Some demo);
                PostOrders one_pizza (Some demo);
                PostOrders no_lines (Some "riverside"%string)] in
  is_Some (find_order (orders s) demo "u1")
  /\ is_Some (find_order (orders (serve_all sim calls s)) demo "u1").
Proof.
  intros s calls.
  assert (is_Some (find_order (orders s) demo "u1")) as Hsome.
  { exists first_order. vm_compute. reflexivity. }
  split; [exact Hsome|].
  exact (orders_are_never_removed sim calls s demo "u1" Hsome).
Defined.

(** X13 at work: requests of "riverside" and one without a header do not
    show under "forkflow-demo". *)
Lemma other_tenants_requests_leave_a_tenant_alone_witness :
  let s := after_first_order [] ["u1"; "u1"]%string [100; 250; 300] in
  let calls := [PostOrders no_lines (Some "riverside"%string);
                PatchOrderStatus "u1" READY (Some "riverside"%string);
                GetOrders None] in
  Forall (fun c => header_of c <> Some demo) calls
  /\ fst (get_orders demo (serve_all sim calls s)) = fst (get_orders demo s)
  /\ (forall order_id : string,
        fst (get_order order_id demo (serve_all sim calls s)) =
        fst (get_order order_id demo s)).
Proof.
  intros s calls.
  assert (Forall (fun c => header_of c <> Some demo) calls) as Hothers.
  { repeat constructor; discriminate. }
  split; [exact Hothers|].
  exact (other_tenants_requests_leave_a_tenant_alone sim calls s demo Hothers).
Defined.


(** X15 at work: the pizza is the second entry of the sample menu. *)
Lemma get_menu_item_returns_the_first_match_witness :
  Catalog.get_menu_item demo_menu "pizza-001" demo = Return pizza
  /\ Catalog.id pizza = "pizza-001"%string
  /\ exists entries before after : list Catalog.MenuItem,
       demo_menu !! demo = Some entries
       /\ entries = before ++ pizza :: after
       /\ Forall (fun i => Catalog.id i <> "pizza-001"%string) before.
Proof.
  assert (Catalog.get_menu_item demo_menu "pizza-001" demo = Return pizza) as Hget
    by (vm_compute; reflexivity).
  split; [exact Hget|].
  destruct (get_menu_item_returns_the_first_match demo_menu "pizza-001" demo)
    as [Hfound _].
  exact (Hfound pizza Hget).
Defined.

(** X16 at work: the menu of "forkflow-demo" has three entries. *)
Lemma get_menu_agrees_with_get_menu_item_witness :
  let menu := Catalog.mkMenu demo Catalog.sample_menu 3 in
  Catalog.get_menu demo_menu demo = Return menu
  /\ Catalog.menu_tenant_id menu = demo
  /\ Catalog.menu_total menu = Z.of_nat (length (Catalog.menu_items menu))
  /\ (forall entry, In entry (Catalog.menu_items menu) ->
        exists found,
          Catalog.get_menu_item demo_menu (Catalog.id entry) demo = Return found
          /\ Catalog.id found = Catalog.id entry)
  /\ (forall item_id found,
        Catalog.get_menu_item demo_menu item_id demo = Return found ->
        In found (Catalog.menu_items menu)).
Proof.
  intros menu.
  assert (Catalog.get_menu demo_menu demo = Return menu) as Hmenu
    by (vm_compute; reflexivity).
  split; [exact Hmenu|].
  destruct (get_menu_agrees_with_get_menu_item demo_menu demo) as [Hreturns _].
  exact (Hreturns menu Hmenu).
Defined.

(** X17 at work: the salad is down to its threshold. *)
Lemma low_stock_items_agree_with_item_inventory_witness :
  let report :=
    Catalog.mkInventory demo
      (<["salad-001" := Catalog.mkStock 5 5]> Catalog.sample_inventory)
      ["salad-001"%string] in
  Catalog.get_inventory demo_inventory demo = Return report
  /\ Catalog.get_item_inventory demo_inventory "salad-001" demo =
     Return (Catalog.mkItemInventory "salad-001" demo 5 5 true)
  /\ Catalog.inventory_tenant_id report = demo
  /\ NoDup (Catalog.low_stock_items report)
  /\ (forall item_id : string,
        In item_id (Catalog.low_stock_items report)
        <-> exists record,
              Catalog.get_item_inventory demo_inventory item_id demo = Return record
              /\ Catalog.is_low_stock record = true).
Proof.
  intros report.
  assert (Catalog.get_inventory demo_inventory demo = Return report) as Hreport
    by (vm_compute; reflexivity).
  split; [exact Hreport|]. split; [vm_compute; reflexivity|].
  destruct (low_stock_items_agree_with_item_inventory demo_inventory demo report
              Hreport) as (Htenant & Hnodup & Hlow & _).
  split; [exact Htenant|]. split; [exact Hnodup | exact Hlow].
Defined.

(** X18 at work: no stock is kept for the ghost. *)
Lemma item_inventory_not_found_witness :
  let e := HTTPException 404 "No inventory for item: ghost-999" in
  Catalog.get_item_inventory demo_inventory "ghost-999" demo = Raise e
  /\ e = HTTPException 404 ("No inventory for item: " +:+ "ghost-999")
  /\ (forall report,
        Catalog.get_inventory demo_inventory demo = Return report ->
        Catalog.inventory_levels report !! "ghost-999"%string = None)
  /\ (forall e', Catalog.get_inventory demo_inventory demo = Raise e' ->
        e' = HTTPException 404 ("No inventory for tenant: " +:+ demo)).
Proof.
  intros e.
  assert (Catalog.get_item_inventory demo_inventory "ghost-999" demo = Raise e)
    as Hraise by (vm_compute; reflexivity).
  split; [exact Hraise|].
  exact (item_inventory_not_found demo_inventory "ghost-999" demo e Hraise).
Defined.

(** X19 at work: confirmed, prepared and read, the first order is still
    two burgers for Ada. *)
Lemma updates_and_reads_keep_the_order_content_witness :
  let s := after_first_order [] ["u1"%string] [100; 250; 300] in
  let calls := [PatchOrderStatus "u1" CONFIRMED (Some demo);
                GetOrders (Some demo);
                PatchOrderStatus "u1" PREPARING (Some demo)] in
  Forall (fun c => forall request x, c <> PostOrders request x) calls
  /\ find_order (orders s) demo "u1" = Some first_order
  /\ exists o' : Order,
       find_order (orders (serve_all sim calls s)) demo "u1" = Some o'
       /\ same_content first_order o'.
Proof.
  intros s calls.
  assert (Forall (fun c => forall request x, c <> PostOrders request x) calls)
    as Hcalls by (repeat constructor; discriminate).
  assert (find_order (orders s) demo "u1" = Some first_order) as Hfind
    by (vm_compute; reflexivity).
  split; [exact Hcalls|]. split; [exact Hfind|].
  exact (updates_and_reads_keep_the_order_content sim calls s demo "u1" first_order
           Hcalls Hfind).
Defined.

End MoreOnTheDeployment.
